(** * Super-resolution training driver (practical_work_2_cnn/main.py)

    A shallow embedding of the orchestration script: option parsing, device
    resolution, the epoch loop with its training and evaluation passes, and
    the final checkpoint.  The tensor library, the network and the data
    pipeline are imported by the script; they appear here as an interface
    ([Runtime]) whose operations the script calls in a fixed order.

    Python values are modelled as the interpreter has them: [int] is [Z],
    [float] is a binary64 primitive float, an uncaught exception is the
    [Raise] branch of [result], and standard output together with every call
    into the tensor library is recorded, in order, in a log of events. *)

From Stdlib Require Import ZArith String List Bool Lia.
From Stdlib Require Import Floats Uint63 DecimalString DecimalZ DecimalPos.
Import ListNotations.

Local Open Scope Z_scope.

Infix "+++" := String.append (right associativity, at level 60).

(** ** Exceptions and results *)

Inductive exn : Type :=
| Exception (msg : string)   (* raise Exception(msg) *)
| SystemExit (code : Z)      (* argparse: parser.error exits with status 2 *)
| ZeroDivisionError          (* x / 0 *)
| ValueError                 (* math domain error *)
| LibraryError (what : string).
                             (* an exception raised inside an imported
                                library (torch, data.py, model.py), by its
                                text *)

Inductive result (A : Type) : Type :=
| Ok (a : A)
| Raise (e : exn).
Arguments Ok {A} a.
Arguments Raise {A} e.

(** Exit status of the interpreter: 0 on normal completion, the code of a
    [SystemExit], 1 for any other uncaught exception. *)
Definition exit_status {A} (r : result A) : Z :=
  match r with
  | Ok _ => 0
  | Raise (SystemExit c) => c
  | Raise _ => 1
  end.

(** ** Python numbers *)

Inductive pynum : Type :=
| PInt (z : Z)
| PFloat (f : float).

(** [float(z)] for an [int] that fits a machine word, which covers the
    literals of the script and every value [len()] can return. *)
Definition float_of_Z (z : Z) : float :=
  if z <? 0 then PrimFloat.opp (PrimFloat.of_uint63 (Uint63.of_Z (- z)))
  else PrimFloat.of_uint63 (Uint63.of_Z z).

Definition py_float (a : pynum) : float :=
  match a with
  | PInt z => float_of_Z z
  | PFloat f => f
  end.

Definition py_is_zero (a : pynum) : bool :=
  match a with
  | PInt z => z =? 0
  | PFloat f => PrimFloat.eqb f 0%float
  end.

(** [a + b]: integer addition on two ints, float addition otherwise. *)
Definition py_add (a b : pynum) : pynum :=
  match a, b with
  | PInt x, PInt y => PInt (x + y)
  | _, _ => PFloat (PrimFloat.add (py_float a) (py_float b))
  end.

(** [a * b] *)
Definition py_mul (a b : pynum) : pynum :=
  match a, b with
  | PInt x, PInt y => PInt (x * y)
  | _, _ => PFloat (PrimFloat.mul (py_float a) (py_float b))
  end.

(** [a / b]: true division always yields a float and raises on a zero
    divisor, int or float (signed zeros included).  For two ints the
    interpreter rounds the exact quotient; the script only reaches that case
    with a zero numerator. *)
Definition py_truediv (a b : pynum) : result float :=
  if py_is_zero b then Raise ZeroDivisionError
  else Ok (PrimFloat.div (py_float a) (py_float b)).

(** [str(z)] *)
Definition str (z : Z) : string := NilZero.string_of_int (Z.to_int z).

(** [int(s)] on a decimal numeral with an optional sign. *)
Definition int_of_str (s : string) : option Z :=
  option_map Z.of_int (NilZero.int_of_string s).

Definition repr_bool (b : bool) : string :=
  if b then "True"%string else "False"%string.

(** [range(lo, hi)] *)
Definition range (lo hi : Z) : list Z :=
  map (fun i => lo + Z.of_nat i) (seq 0 (Z.to_nat (hi - lo))).

(** [enumerate(l, start)] *)
Fixpoint enumerate {A} (start : Z) (l : list A) : list (Z * A) :=
  match l with
  | [] => []
  | a :: l' => (start, a) :: enumerate (start + 1) l'
  end.

(** ** Command line and options *)

(** The command line after tokenising: for each option, the converted value
    when the option was supplied; flags, the help flag of the parser among
    them, are present or absent. *)
Record Argv : Type := {
  arg_help : bool;                  (* -h / --help, which the parser adds *)
  arg_upscale_factor : option Z;
  arg_batch_size : option Z;
  arg_test_batch_size : option Z;
  arg_nb_epochs : option Z;
  arg_lr : option float;
  arg_cuda : bool;
  arg_mps : bool;
  arg_threads : option Z;
  arg_seed : option Z
}.

(** The namespace [opt] returned by [parser.parse_args()]. *)
Record Options : Type := {
  upscale_factor : Z;
  batch_size : Z;
  test_batch_size : Z;
  nb_epochs : Z;
  lr : float;
  cuda : bool;
  mps : bool;
  threads : Z;
  seed : Z
}.

Definition default {A} (d : A) (o : option A) : A :=
  match o with
  | Some a => a
  | None => d
  end.

(** [parser.parse_args()]: the help action prints the help and exits with
    status 0 before anything is checked; a missing required option ends the
    process through [parser.error]; every other option falls back to its
    default. *)
Definition parse_args (argv : Argv) : result Options :=
  if arg_help argv then Raise (SystemExit 0) else
  match arg_upscale_factor argv with
  | None => Raise (SystemExit 2)
  | Some uf =>
      Ok {| upscale_factor := uf;
            batch_size := default 64 (arg_batch_size argv);
            test_batch_size := default 10 (arg_test_batch_size argv);
            nb_epochs := default 2 (arg_nb_epochs argv);
            lr := default 0x1.47ae147ae147bp-7%float (arg_lr argv);
            cuda := arg_cuda argv;
            mps := arg_mps argv;
            threads := default 4 (arg_threads argv);
            seed := default 123 (arg_seed argv) |}
  end.

(** What the host answers to [torch.cuda.is_available()] and
    [torch.backends.mps.is_available()]. *)
Record Host : Type := {
  cuda_is_available : bool;
  mps_is_available : bool
}.

(** [torch.device("cpu" | "cuda" | "mps")] *)
Inductive Device : Type :=
| cpu
| gpu       (* "cuda" *)
| mps_dev.  (* "mps" *)

(** Lines 45-52. *)
Definition select_device (host : Host) (opt : Options) : Device :=
  let use_mps := mps opt && mps_is_available host in
  if cuda opt then gpu
  else if use_mps then mps_dev
  else cpu.

(** ** The imported libraries *)

(** What the script imports and calls: tensors, the network of [model.py],
    the datasets of [data.py], the optimiser, and the float formatting of the
    interpreter.  State that the library mutates in place (parameters,
    gradients, optimiser moments) is passed explicitly.  The calls of lines
    44-71 check their arguments and may raise (a seed outside 64 bits, a
    batch size that is not positive, an empty dataset to shuffle, a negative
    learning rate, ...): for each, [_raises] tells whether it does, and the
    function beside it is the value it returns when it does not. *)
Class Runtime : Type := {
  Tensor : Type;
  Model : Type;        (* an nn.Module: parameters and their gradients *)
  Optimizer : Type;    (* the optimiser's own state *)
  Dataset : Type;
  float_repr : float -> string;    (* repr(x) *)
  format_4f : float -> string;     (* format(x, ".4f") *)
  libm_log10 : float -> float;     (* C log10 on a positive finite double *)
  help_text : string;              (* parser.format_help() *)
  manual_seed_raises : Z -> option string;       (* torch.manual_seed(seed) *)
  get_training_set : Z -> Dataset;
  get_training_set_raises : Z -> option string;
  get_test_set : Z -> Dataset;
  get_test_set_raises : Z -> option string;
  loader_raises : Z -> Dataset -> Z -> Z -> bool -> option string;
                                   (* seed; DataLoader(dataset, num_workers,
                                      batch_size, shuffle) *)
  Net : Z -> Z -> Model;           (* seed, upscale factor: Net(upscale_factor) *)
  model_to : Device -> Model -> Model;
  net_raises : Z -> Z -> Device -> option string;
                                   (* Net(upscale_factor).to(device) *)
  tensor_to : Device -> Tensor -> Tensor;
  Adam : Model -> float -> Optimizer;
  adam_raises : Model -> float -> option string;
  forward : bool -> Model -> Tensor -> Tensor;   (* model(input), under a grad mode *)
  mse_loss : Tensor -> Tensor -> Tensor;         (* nn.MSELoss()(prediction, target) *)
  item : Tensor -> float;
  backward : Tensor -> Model -> Model;           (* loss.backward() *)
  zero_grad : Optimizer -> Model -> Model;
  step : Optimizer -> Model -> Optimizer * Model
}.

(** [math.log10]: the domain check of the interpreter around the C function. *)
Definition log10 `{Runtime} (x : float) : result float :=
  if PrimFloat.is_nan x then Ok x
  else if PrimFloat.eqb x infinity then Ok x
  else if PrimFloat.ltb 0%float x then Ok (libm_log10 x)
  else Raise ValueError.

(** ** Exceptions and state: the monad of the script *)

Definition M (S A : Type) : Type := S -> result A * S.

Definition ret {S A} (a : A) : M S A := fun s => (Ok a, s).

Definition bind {S A B} (c : M S A) (k : A -> M S B) : M S B :=
  fun s =>
    match c s with
    | (Ok a, s') => k a s'
    | (Raise e, s') => (Raise e, s')
    end.

Definition raise {S A} (e : exn) : M S A := fun s => (Raise e, s).

(** A pure computation that may raise. *)
Definition lift {S A} (r : result A) : M S A := fun s => (r, s).

Notation "x <- c ;; k" := (bind c (fun x => k))
  (at level 61, c at next level, right associativity).
Notation "c ;; k" := (bind c (fun _ => k))
  (at level 61, right associativity).

(** [if c: raise e] *)
Definition raise_if {S} (c : bool) (e : exn) : M S unit :=
  if c then raise e else ret tt.

(** [for a in l: body(a)] *)
Fixpoint for_each {S A} (l : list A) (body : A -> M S unit) : M S unit :=
  match l with
  | [] => ret tt
  | a :: l' => body a ;; for_each l' body
  end.

(** A [for] loop that carries one rebound variable. *)
Fixpoint for_fold {S A B} (l : list A) (body : B -> A -> M S B) (b : B) : M S B :=
  match l with
  | [] => ret b
  | a :: l' => b' <- body b a ;; for_fold l' body b'
  end.

Section Script.

Context {rt : Runtime}.

(** A [DataLoader] over a map-style dataset: every traversal yields
    [len(loader)] batches; which examples make up batch [i] may depend on the
    traversal (the training loader reshuffles each time). *)
Record DataLoader : Type := {
  dl_len : nat;
  dl_batch : nat -> nat -> Tensor * Tensor;            (* traversal, position *)
  dl_len_ssize : (Z.of_nat dl_len <? 2 ^ 63) = true    (* len() is a Py_ssize_t *)
}.

(** [len(loader)] *)
Definition len (d : DataLoader) : Z := Z.of_nat (dl_len d).

(** The batches of the [k]-th traversal, in order. *)
Definition batches (d : DataLoader) (k : nat) : list (Tensor * Tensor) :=
  map (dl_batch d k) (seq 0 (dl_len d)).

(** The lines the script prints. *)
Inductive Msg : Type :=
| MsgHelp                                                (* parser.print_help() *)
| MsgOptions (o : Options)                               (* print(opt) *)
| MsgLoading
| MsgBuilding
| MsgBatch (epoch iteration total : Z) (loss : float)
| MsgEpoch (epoch : Z) (avg : float)
| MsgPsnr (avg : float)
| MsgCheckpoint (path : string).

Definition repr_options (o : Options) : string :=
  "Namespace(upscale_factor=" +++ str (upscale_factor o) +++
  ", batch_size=" +++ str (batch_size o) +++
  ", test_batch_size=" +++ str (test_batch_size o) +++
  ", nb_epochs=" +++ str (nb_epochs o) +++
  ", lr=" +++ float_repr (lr o) +++
  ", cuda=" +++ repr_bool (cuda o) +++
  ", mps=" +++ repr_bool (mps o) +++
  ", threads=" +++ str (threads o) +++
  ", seed=" +++ str (seed o) +++ ")".

(** The text of each line. *)
Definition render (m : Msg) : string :=
  match m with
  | MsgHelp => help_text
  | MsgOptions o => repr_options o
  | MsgLoading => "===> Loading datasets"
  | MsgBuilding => "===> Building model"
  | MsgBatch epoch iteration total loss =>
      "===> Epoch[" +++ str epoch +++ "](" +++ str iteration +++ "/" +++
      str total +++ "): Loss: " +++ format_4f loss
  | MsgEpoch epoch avg =>
      "===> Epoch " +++ str epoch +++ " Complete: Avg. Loss: " +++ format_4f avg
  | MsgPsnr avg => "===> Avg. PSNR: " +++ format_4f avg +++ " dB"
  | MsgCheckpoint path => "Checkpoint saved to " +++ path
  end.

(** What a run does to the outside, in order: a line on standard output
    ([Print m] stands for the line [render m]) or a call into the imported
    libraries that returned. *)
Inductive Event : Type :=
| Print (m : Msg)
| ManualSeed (s : Z)
| GetTrainingSet (uf : Z)
| GetTestSet (uf : Z)
| NewDataLoader (num_workers batch : Z) (shuffle : bool)
| NewNet (uf : Z) (d : Device)
| NewAdam (rate : float)
| ToDevice (d : Device)
| ZeroGrad
| Forward (grad : bool)
| Criterion
| Backward
| OptimizerStep
| Save (path : string) (m : Model).

(** [DataLoader(dataset=..., num_workers=..., batch_size=..., shuffle=...)],
    under the seed set by [torch.manual_seed]. *)
Variable new_loader : Z -> Dataset -> Z -> Z -> bool -> DataLoader.

(** The globals bound once by the module body. *)
Record Globals : Type := {
  opt : Options;
  device : Device;
  training_data_loader : DataLoader;
  testing_data_loader : DataLoader
}.

(** The state the loops mutate. *)
Record World : Type := {
  model : Model;
  optimizer : Optimizer;
  grad_enabled : bool;     (* torch's grad mode *)
  train_passes : nat;      (* traversals of the training loader begun *)
  test_passes : nat;
  log : list Event
}.

Definition set_model (m : Model) (w : World) : World :=
  {| model := m; optimizer := optimizer w; grad_enabled := grad_enabled w;
     train_passes := train_passes w; test_passes := test_passes w; log := log w |}.

Definition set_optimizer (o : Optimizer) (w : World) : World :=
  {| model := model w; optimizer := o; grad_enabled := grad_enabled w;
     train_passes := train_passes w; test_passes := test_passes w; log := log w |}.

Definition set_grad_enabled (b : bool) (w : World) : World :=
  {| model := model w; optimizer := optimizer w; grad_enabled := b;
     train_passes := train_passes w; test_passes := test_passes w; log := log w |}.

Definition set_log (l : list Event) (w : World) : World :=
  {| model := model w; optimizer := optimizer w; grad_enabled := grad_enabled w;
     train_passes := train_passes w; test_passes := test_passes w; log := l |}.

(** *** Lines 13-71: options, validation, device, data, model *)

Definition record (e : Event) : M (list Event) unit :=
  fun l => (Ok tt, l ++ [e]).

(** What [parse_args] writes on standard output. *)
Definition help_output (argv : Argv) : list Event :=
  if arg_help argv then [Print MsgHelp] else [].

Definition run_parser (argv : Argv) : M (list Event) Options :=
  fun l => (parse_args argv, l ++ help_output argv).

(** A call that checks its arguments: it raises, or it returns [v] and is
    recorded. *)
Definition library_call {A} (raises : option string) (e : Event) (v : A)
  : M (list Event) A :=
  match raises with
  | Some what => raise (LibraryError what)
  | None => record e ;; ret v
  end.

Definition setup (host : Host) (argv : Argv) : M (list Event) (Globals * World) :=
  opt <- run_parser argv ;;
  record (Print (MsgOptions opt)) ;;
  raise_if (cuda opt && negb (cuda_is_available host))
    (Exception "No GPU found, please run without --cuda") ;;
  raise_if (negb (mps opt) && mps_is_available host)
    (Exception "Found mps device, please run with --mps to enable macOS GPU") ;;
  library_call (manual_seed_raises (seed opt)) (ManualSeed (seed opt)) tt ;;
  let device := select_device host opt in
  record (Print MsgLoading) ;;
  train_set <- library_call (get_training_set_raises (upscale_factor opt))
                 (GetTrainingSet (upscale_factor opt))
                 (get_training_set (upscale_factor opt)) ;;
  test_set <- library_call (get_test_set_raises (upscale_factor opt))
                (GetTestSet (upscale_factor opt))
                (get_test_set (upscale_factor opt)) ;;
  training_data_loader <-
    library_call
      (loader_raises (seed opt) train_set (threads opt) (batch_size opt) true)
      (NewDataLoader (threads opt) (batch_size opt) true)
      (new_loader (seed opt) train_set (threads opt) (batch_size opt) true) ;;
  testing_data_loader <-
    library_call
      (loader_raises (seed opt) test_set (threads opt) (test_batch_size opt) false)
      (NewDataLoader (threads opt) (test_batch_size opt) false)
      (new_loader (seed opt) test_set (threads opt) (test_batch_size opt) false) ;;
  record (Print MsgBuilding) ;;
  model <- library_call (net_raises (seed opt) (upscale_factor opt) device)
             (NewNet (upscale_factor opt) device)
             (model_to device (Net (seed opt) (upscale_factor opt))) ;;
  optimizer <- library_call (adam_raises model (lr opt)) (NewAdam (lr opt))
                 (Adam model (lr opt)) ;;
  fun l =>
    (Ok ({| opt := opt; device := device;
            training_data_loader := training_data_loader;
            testing_data_loader := testing_data_loader |},
         {| model := model; optimizer := optimizer; grad_enabled := true;
            train_passes := 0; test_passes := 0; log := l |}), l).

(** *** Calls into the tensor library from the loops *)

Definition emit (e : Event) : M World unit :=
  fun w => (Ok tt, set_log (log w ++ [e]) w).

Definition print (m : Msg) : M World unit := emit (Print m).

(** [t.to(device)] *)
Definition to_device (d : Device) (t : Tensor) : M World Tensor :=
  emit (ToDevice d) ;; ret (tensor_to d t).

(** [optimizer.zero_grad()] *)
Definition optimizer_zero_grad : M World unit :=
  fun w => emit ZeroGrad (set_model (zero_grad (optimizer w) (model w)) w).

(** [model(input)] *)
Definition call_model (input : Tensor) : M World Tensor :=
  fun w =>
    (emit (Forward (grad_enabled w)) ;;
     ret (forward (grad_enabled w) (model w) input)) w.

(** [criterion(prediction, target)] *)
Definition criterion (prediction target : Tensor) : M World Tensor :=
  emit Criterion ;; ret (mse_loss prediction target).

(** [loss.backward()] *)
Definition loss_backward (loss : Tensor) : M World unit :=
  fun w => emit Backward (set_model (backward loss (model w)) w).

(** [optimizer.step()] *)
Definition optimizer_step : M World unit :=
  fun w =>
    let (o, m) := step (optimizer w) (model w) in
    emit OptimizerStep (set_model m (set_optimizer o w)).

(** [torch.save(model, path)] *)
Definition torch_save (path : string) : M World unit :=
  fun w => emit (Save path (model w)) w.

(** [with torch.no_grad(): body]: the previous grad mode comes back on exit,
    also when the body raises. *)
Definition with_no_grad {A} (body : M World A) : M World A :=
  fun w =>
    let prev := grad_enabled w in
    let (r, w') := body (set_grad_enabled false w) in
    (r, set_grad_enabled prev w').

(** [iter(training_data_loader)] / [iter(testing_data_loader)] *)
Definition iter_training (g : Globals) : M World (list (Tensor * Tensor)) :=
  fun w =>
    (Ok (batches (training_data_loader g) (train_passes w)),
     {| model := model w; optimizer := optimizer w; grad_enabled := grad_enabled w;
        train_passes := S (train_passes w); test_passes := test_passes w;
        log := log w |}).

Definition iter_testing (g : Globals) : M World (list (Tensor * Tensor)) :=
  fun w =>
    (Ok (batches (testing_data_loader g) (test_passes w)),
     {| model := model w; optimizer := optimizer w; grad_enabled := grad_enabled w;
        train_passes := train_passes w; test_passes := S (test_passes w);
        log := log w |}).

(** *** Lines 74-91: [train] *)

(** The body of the loop of [train]; [epoch_loss] is carried from batch to
    batch. *)
Definition train_batch (g : Globals) (epoch : Z) (epoch_loss : pynum)
    (it : Z * (Tensor * Tensor)) : M World pynum :=
  let (iteration, batch) := it in
  input <- to_device (device g) (fst batch) ;;
  target <- to_device (device g) (snd batch) ;;
  optimizer_zero_grad ;;
  prediction <- call_model input ;;
  loss <- criterion prediction target ;;
  let epoch_loss := py_add epoch_loss (PFloat (item loss)) in
  loss_backward loss ;;
  optimizer_step ;;
  print (MsgBatch epoch iteration (len (training_data_loader g)) (item loss)) ;;
  ret epoch_loss.

Definition train (g : Globals) (epoch : Z) : M World unit :=
  bs <- iter_training g ;;
  epoch_loss <- for_fold (enumerate 1 bs) (train_batch g epoch) (PInt 0) ;;
  avg <- lift (py_truediv epoch_loss (PInt (len (training_data_loader g)))) ;;
  print (MsgEpoch epoch avg).

(** *** Lines 94-104: [test] *)

(** Line 102. *)
Definition psnr_of (mse : float) : result pynum :=
  match py_truediv (PInt 1) (PFloat mse) with
  | Raise e => Raise e
  | Ok q =>
      match log10 q with
      | Raise e => Raise e
      | Ok l => Ok (py_mul (PInt 10) (PFloat l))
      end
  end.

Definition test_batch (g : Globals) (avg_psnr : pynum)
    (batch : Tensor * Tensor) : M World pynum :=
  input <- to_device (device g) (fst batch) ;;
  target <- to_device (device g) (snd batch) ;;
  prediction <- call_model input ;;
  mse <- criterion prediction target ;;
  psnr <- lift (psnr_of (item mse)) ;;
  ret (py_add avg_psnr psnr).

Definition test (g : Globals) : M World unit :=
  avg_psnr <- with_no_grad
                (bs <- iter_testing g ;;
                 for_fold bs (test_batch g) (PInt 0)) ;;
  avg <- lift (py_truediv avg_psnr (PInt (len (testing_data_loader g)))) ;;
  print (MsgPsnr avg).

(** *** Lines 107-110: [checkpoint] *)

Definition checkpoint (epoch : Z) : M World unit :=
  let model_out_path := "model_epoch_" +++ str epoch +++ ".pth" in
  torch_save model_out_path ;;
  print (MsgCheckpoint model_out_path).

(** *** Lines 113-117: the epoch loop and the final checkpoint *)

Definition epochs (o : Options) : list Z := range 1 (nb_epochs o + 1).

Definition run_epochs (g : Globals) : M World unit :=
  for_each (epochs (opt g)) (fun epoch => train g epoch ;; test g).

Definition run (g : Globals) : M World unit :=
  run_epochs g ;;
  checkpoint (nb_epochs (opt g)).

(** The whole script: how the process ends and everything it did. *)
Definition main (host : Host) (argv : Argv) : result unit * list Event :=
  match setup host argv [] with
  | (Raise e, l) => (Raise e, l)
  | (Ok (g, w), _) => let (r, w') := run g w in (r, log w')
  end.

End Script.

(** ** Reading the log *)

Section Observations.

Context {rt : Runtime}.

(** The left-to-right float sum of [l] from 0, divided by the number of
    values: the arithmetic mean as the loops compute it. *)
Definition mean (l : list float) : float :=
  PrimFloat.div (fold_left PrimFloat.add l 0%float)
                (float_of_Z (Z.of_nat (List.length l))).

(** The loss values shown on the per-batch progress lines, in order. *)
Fixpoint reported_losses (evs : list Event) : list float :=
  match evs with
  | [] => []
  | Print (MsgBatch _ _ _ loss) :: evs' => loss :: reported_losses evs'
  | _ :: evs' => reported_losses evs'
  end.

(** The checkpoints written, in order: path and model. *)
Fixpoint saves (evs : list Event) : list (string * Model) :=
  match evs with
  | [] => []
  | Save path m :: evs' => (path, m) :: saves evs'
  | _ :: evs' => saves evs'
  end.

(** An event with the float it prints blanked: what happened, whatever the
    numbers were. *)
Definition erase (e : Event) : Event :=
  match e with
  | Print (MsgBatch epoch iteration total _) =>
      Print (MsgBatch epoch iteration total 0%float)
  | Print (MsgEpoch epoch _) => Print (MsgEpoch epoch 0%float)
  | Print (MsgPsnr _) => Print (MsgPsnr 0%float)
  | _ => e
  end.

(** An event of an evaluation pass: a tensor moved, a prediction made with
    gradient tracking off, a loss computed, a line printed. *)
Definition eval_event (e : Event) : Prop :=
  match e with
  | ToDevice _ | Forward false | Criterion | Print _ => True
  | _ => False
  end.

(** The loss the training loop computes for batch [b] from world [w]: the
    gradients are reset first, the parameters are those of [w]. *)
Definition batch_loss_tensor (g : Globals) (w : World) (b : Tensor * Tensor) : Tensor :=
  mse_loss
    (forward (grad_enabled w) (zero_grad (optimizer w) (model w))
       (tensor_to (device g) (fst b)))
    (tensor_to (device g) (snd b)).

Definition batch_loss (g : Globals) (w : World) (b : Tensor * Tensor) : float :=
  item (batch_loss_tensor g w b).

(** The eight steps of one training batch, as events. *)
Definition batch_events (g : Globals) (epoch iteration : Z) (grad : bool)
    (loss : float) : list Event :=
  [ ToDevice (device g); ToDevice (device g); ZeroGrad; Forward grad; Criterion;
    Backward; OptimizerStep;
    Print (MsgBatch epoch iteration (len (training_data_loader g)) loss) ].

(** The world after one training batch. *)
Definition after_batch (g : Globals) (epoch iteration : Z) (b : Tensor * Tensor)
    (w : World) : World :=
  let m0 := zero_grad (optimizer w) (model w) in
  let m1 := backward (batch_loss_tensor g w b) m0 in
  {| model := snd (step (optimizer w) m1);
     optimizer := fst (step (optimizer w) m1);
     grad_enabled := grad_enabled w;
     train_passes := train_passes w;
     test_passes := test_passes w;
     log := log w ++ batch_events g epoch iteration (grad_enabled w) (batch_loss g w b) |}.

(** [n] consecutive integers from [i]. *)
Fixpoint count_from (i : Z) (n : nat) : list Z :=
  match n with
  | O => []
  | S n' => i :: count_from (i + 1) n'
  end.

(** The world after the batches [bs], taken in order from iteration [i]. *)
Fixpoint train_from (g : Globals) (epoch i : Z) (bs : list (Tensor * Tensor))
    (w : World) : World :=
  match bs with
  | [] => w
  | b :: bs' => train_from g epoch (i + 1) bs' (after_batch g epoch i b w)
  end.

(** The losses of the batches [bs], taken in order from world [w]: each is
    computed from the model the batches before it have left. *)
Fixpoint losses_from (g : Globals) (epoch i : Z) (bs : list (Tensor * Tensor))
    (w : World) : list float :=
  match bs with
  | [] => []
  | b :: bs' =>
      batch_loss g w b :: losses_from g epoch (i + 1) bs' (after_batch g epoch i b w)
  end.

(** The world in which a traversal of the training loader starts. *)
Definition begin_pass (w : World) : World :=
  {| model := model w; optimizer := optimizer w; grad_enabled := grad_enabled w;
     train_passes := S (train_passes w); test_passes := test_passes w;
     log := log w |}.

(** The events of a whole training pass over [n] batches, numbers blanked. *)
Definition train_shape (g : Globals) (epoch : Z) (grad : bool) (n : nat) : list Event :=
  flat_map (fun i => batch_events g epoch i grad 0%float) (count_from 1 n)
  ++ [Print (MsgEpoch epoch 0%float)].

(** The loss the evaluation loop computes for batch [b] from world [w]. *)
Definition batch_mse (g : Globals) (w : World) (b : Tensor * Tensor) : float :=
  item (mse_loss (forward false (model w) (tensor_to (device g) (fst b)))
                 (tensor_to (device g) (snd b))).

Definition eval_events (g : Globals) : list Event :=
  [ ToDevice (device g); ToDevice (device g); Forward false; Criterion ].

(** The events of a whole evaluation pass over [n] batches, numbers blanked. *)
Definition test_shape (g : Globals) (n : nat) : list Event :=
  concat (repeat (eval_events g) n) ++ [Print (MsgPsnr 0%float)].

(** The accumulation of line 103 over the losses [ms]: the total, or the
    first exception, and how many batches were started. *)
Fixpoint psnr_sum (ms : list float) (acc : pynum) : result pynum * nat :=
  match ms with
  | [] => (Ok acc, O)
  | m :: ms' =>
      match psnr_of m with
      | Ok p => let (r, k) := psnr_sum ms' (py_add acc p) in (r, S k)
      | Raise e => (Raise e, 1%nat)
      end
  end.

(** [10 * log10(1 / mse)] where the quotient is positive. *)
Definition psnr_db (mse : float) : float :=
  let q := PrimFloat.div 1%float mse in
  PrimFloat.mul 10%float (if PrimFloat.eqb q infinity then q else libm_log10 q).

(** The path [checkpoint] writes to. *)
Definition checkpoint_path (epoch : Z) : string :=
  "model_epoch_" +++ str epoch +++ ".pth".

(** The body of the epoch loop. *)
Definition epoch_body (g : Globals) (epoch : Z) : M World unit :=
  train g epoch ;; test g.

(** The losses of an evaluation pass started from [w]. *)
Definition eval_losses (g : Globals) (w : World) : list float :=
  map (batch_mse g w) (batches (testing_data_loader g) (test_passes w)).

(** The world an evaluation pass leaves, before its summary line. *)
Definition after_eval (g : Globals) (w : World) : World :=
  {| model := model w; optimizer := optimizer w; grad_enabled := grad_enabled w;
     train_passes := train_passes w; test_passes := S (test_passes w);
     log := log w ++
            concat (repeat (eval_events g)
                      (snd (psnr_sum (eval_losses g w) (PInt 0)))) |}.

(** The events of one epoch that completes: a training pass over [n] batches,
    then an evaluation pass over [k] batches. *)
Definition epoch_shape (g : Globals) (grad : bool) (epoch : Z) : list Event :=
  train_shape g epoch grad (dl_len (training_data_loader g)) ++
  test_shape g (dl_len (testing_data_loader g)).

(** What lines 13-71 leave when they complete: the events, the globals and
    the first world. *)
Definition setup_events (o : Options) (d : Device) : list Event :=
  [ Print (MsgOptions o); ManualSeed (seed o); Print MsgLoading;
    GetTrainingSet (upscale_factor o); GetTestSet (upscale_factor o);
    NewDataLoader (threads o) (batch_size o) true;
    NewDataLoader (threads o) (test_batch_size o) false;
    Print MsgBuilding; NewNet (upscale_factor o) d; NewAdam (lr o) ].

Variable new_loader : Z -> Dataset -> Z -> Z -> bool -> DataLoader.

Definition initial_globals (host : Host) (o : Options) : Globals :=
  {| opt := o; device := select_device host o;
     training_data_loader :=
       new_loader (seed o) (get_training_set (upscale_factor o))
         (threads o) (batch_size o) true;
     testing_data_loader :=
       new_loader (seed o) (get_test_set (upscale_factor o))
         (threads o) (test_batch_size o) false |}.

Definition initial_model (host : Host) (o : Options) : Model :=
  model_to (select_device host o) (Net (seed o) (upscale_factor o)).

(** The first call of lines 44-71 that raises, if any, with the number of
    events recorded before it. *)
Definition library_setup (host : Host) (o : Options) : option (string * nat) :=
  match manual_seed_raises (seed o) with
  | Some what => Some (what, 1%nat)
  | None =>
  match get_training_set_raises (upscale_factor o) with
  | Some what => Some (what, 3%nat)
  | None =>
  match get_test_set_raises (upscale_factor o) with
  | Some what => Some (what, 4%nat)
  | None =>
  match loader_raises (seed o) (get_training_set (upscale_factor o))
          (threads o) (batch_size o) true with
  | Some what => Some (what, 5%nat)
  | None =>
  match loader_raises (seed o) (get_test_set (upscale_factor o))
          (threads o) (test_batch_size o) false with
  | Some what => Some (what, 6%nat)
  | None =>
  match net_raises (seed o) (upscale_factor o) (select_device host o) with
  | Some what => Some (what, 8%nat)
  | None =>
  match adam_raises (initial_model host o) (lr o) with
  | Some what => Some (what, 9%nat)
  | None => None
  end end end end end end end.

Definition initial_world (host : Host) (o : Options) : World :=
  {| model := initial_model host o;
     optimizer := Adam (initial_model host o) (lr o);
     grad_enabled := true; train_passes := 0; test_passes := 0;
     log := setup_events o (select_device host o) |}.

(** How many events of [l] satisfy [p]. *)
Definition count (p : Event -> bool) (l : list Event) : nat :=
  List.length (filter p l).




Definition is_batch_line (e : Event) : bool :=
  match e with Print (MsgBatch _ _ _ _) => true | _ => false end.

Definition is_epoch_line (e : Event) : bool :=
  match e with Print (MsgEpoch _ _) => true | _ => false end.

Definition is_psnr_line (e : Event) : bool :=
  match e with Print (MsgPsnr _) => true | _ => false end.

Definition is_save (e : Event) : bool :=
  match e with Save _ _ => true | _ => false end.


(** The float line 102 yields for [mse], where it yields one. *)
Definition psnr_value (mse : float) : float :=
  match psnr_of mse with
  | Ok p => py_float p
  | Raise _ => 0%float
  end.

End Observations.

(** ** A small runtime to run the script on

    Scalars for tensors, a one-weight linear model with its gradient, plain
    gradient descent for the optimiser, and datasets of at most two examples
    served one example per batch.  Its constructors refuse what the real
    ones refuse: a seed outside 64 bits, a negative worker count, a batch
    size that is not positive, an empty dataset to shuffle, a negative
    learning rate. *)

Module Toy.

Definition example : Type := float * float.

#[local] Instance runtime : Runtime := {|
  Tensor := float;
  Model := float * float;
  Optimizer := float;
  Dataset := list example;
  float_repr := fun _ => "<float>"%string;
  format_4f := fun _ => "<.4f>"%string;
  libm_log10 := fun x => x;
  help_text := "usage: main.py [-h] --upscale_factor UPSCALE_FACTOR ..."%string;
  manual_seed_raises := fun s =>
    if (- 2 ^ 63 >? s) || (2 ^ 64 - 1 <? s)
    then Some "RuntimeError: Overflow when unpacking long"%string else None;
  get_training_set := fun uf =>
    if uf =? 0 then [] else [(1%float, 2%float); (2%float, 4%float)];
  get_training_set_raises := fun _ => None;
  get_test_set := fun uf =>
    if uf =? 0 then [] else [(3%float, 3%float)];
  get_test_set_raises := fun _ => None;
  loader_raises := fun _ ds num_workers batch shuffle =>
    if num_workers <? 0
    then Some "ValueError: num_workers option should be non-negative"%string
    else if batch <=? 0
    then Some "ValueError: batch_size should be a positive integer value"%string
    else if shuffle && match ds with [] => true | _ => false end
    then Some "ValueError: num_samples should be a positive integer value"%string
    else None;
  Net := fun _ _ => (1%float, 0%float);
  model_to := fun _ m => m;
  net_raises := fun _ _ _ => None;
  tensor_to := fun _ t => t;
  Adam := fun _ rate => rate;
  adam_raises := fun _ rate =>
    if PrimFloat.ltb rate 0%float
    then Some "ValueError: Invalid learning rate"%string else None;
  forward := fun _ m x => PrimFloat.mul (fst m) x;
  mse_loss := fun p t => PrimFloat.mul (PrimFloat.sub p t) (PrimFloat.sub p t);
  item := fun t => t;
  backward := fun loss m => (fst m, PrimFloat.add (snd m) loss);
  zero_grad := fun _ m => (fst m, 0%float);
  step := fun o m => (o, (PrimFloat.sub (fst m) (PrimFloat.mul o (snd m)), snd m))
|}.

Definition loader (ds : list example) : DataLoader :=
  match ds with
  | [] => {| dl_len := 0; dl_batch := fun _ _ => (0%float, 0%float);
             dl_len_ssize := eq_refl |}
  | [a] => {| dl_len := 1; dl_batch := fun _ _ => a; dl_len_ssize := eq_refl |}
  | a :: b :: _ =>
      {| dl_len := 2;
         dl_batch := fun _ i => match i with O => a | _ => b end;
         dl_len_ssize := eq_refl |}
  end.

Definition new_loader (_ : Z) (ds : list example) (_ _ : Z) (_ : bool) : DataLoader :=
  loader ds.

Definition host : Host := {| cuda_is_available := false; mps_is_available := false |}.

(** [--upscale_factor uf --nb_epochs n] *)
Definition argv (uf n : Z) : Argv :=
  {| arg_help := false; arg_upscale_factor := Some uf; arg_batch_size := None;
     arg_test_batch_size := None; arg_nb_epochs := Some n; arg_lr := None;
     arg_cuda := false; arg_mps := false; arg_threads := None; arg_seed := None |}.

Definition options (n : Z) : Options :=
  {| upscale_factor := 3; batch_size := 64; test_batch_size := 10; nb_epochs := n;
     lr := 0x1.47ae147ae147bp-7%float; cuda := false; mps := false; threads := 4;
     seed := 123 |}.

Definition globals (n : Z) (train_set test_set : list example) : Globals :=
  {| opt := options n; device := cpu;
     training_data_loader := loader train_set;
     testing_data_loader := loader test_set |}.

Definition world (weight : float) : World :=
  {| model := (weight, 0%float); optimizer := 0x1.47ae147ae147bp-7%float;
     grad_enabled := true; train_passes := 0; test_passes := 0; log := [] |}.

(** A host with a GPU, and [--upscale_factor 3 --cuda]. *)
Definition gpu_host : Host := {| cuda_is_available := true; mps_is_available := false |}.

Definition argv_cuda : Argv :=
  {| arg_help := false; arg_upscale_factor := Some 3; arg_batch_size := None;
     arg_test_batch_size := None; arg_nb_epochs := None; arg_lr := None;
     arg_cuda := true; arg_mps := false; arg_threads := None; arg_seed := None |}.

(** [--upscale_factor 3 --mps], and a command line without the factor. *)
Definition argv_mps : Argv :=
  {| arg_help := false; arg_upscale_factor := Some 3; arg_batch_size := None;
     arg_test_batch_size := None; arg_nb_epochs := None; arg_lr := None;
     arg_cuda := false; arg_mps := true; arg_threads := None; arg_seed := None |}.

Definition no_upscale_factor : Argv :=
  {| arg_help := false; arg_upscale_factor := None; arg_batch_size := None;
     arg_test_batch_size := None; arg_nb_epochs := None; arg_lr := None;
     arg_cuda := false; arg_mps := false; arg_threads := None; arg_seed := None |}.

(** [-h], and [--upscale_factor 3 --nb_epochs 0 --batch_size 0]. *)
Definition argv_help : Argv :=
  {| arg_help := true; arg_upscale_factor := None; arg_batch_size := None;
     arg_test_batch_size := None; arg_nb_epochs := None; arg_lr := None;
     arg_cuda := false; arg_mps := false; arg_threads := None; arg_seed := None |}.

Definition argv_batch_size_0 : Argv :=
  {| arg_help := false; arg_upscale_factor := Some 3; arg_batch_size := Some 0;
     arg_test_batch_size := None; arg_nb_epochs := Some 0; arg_lr := None;
     arg_cuda := false; arg_mps := false; arg_threads := None; arg_seed := None |}.

(** A model that fits its data exactly: the weight stays 1 through training
    and the evaluation loss is exactly zero. *)
Definition exact_fit : Globals :=
  globals 1 [(1%float, 1%float)] [(3%float, 3%float)].

(** A model whose prediction overflowed: the evaluation loss is infinite. *)
Definition overflowed : Globals := globals 1 [] [(1%float, 0%float)].

(** No evaluation data. *)
Definition no_test_data : Globals := globals 1 [(1%float, 2%float)] [].

(** Two training batches, one evaluation batch. *)
Definition small : Globals :=
  globals 1 [(1%float, 2%float); (2%float, 4%float)] [(3%float, 3%float)].

End Toy.


(** * Properties *)

(** ** Floats and Python numbers *)

Lemma pos_not_zero (m : float) :
  PrimFloat.ltb 0%float m = true -> PrimFloat.eqb m 0%float = false.
Proof.
  rewrite FloatAxioms.ltb_spec, FloatAxioms.eqb_spec.
  change (Prim2SF 0%float) with (S754_zero false).
  destruct (Prim2SF m) as [s | s | | s mant e]; cbn; try discriminate;
    destruct s; cbn; congruence.
Qed.

Lemma pos_not_nan (q : float) :
  PrimFloat.ltb 0%float q = true -> PrimFloat.is_nan q = false.
Proof.
  unfold PrimFloat.is_nan.
  rewrite FloatAxioms.ltb_spec, FloatAxioms.eqb_spec.
  change (Prim2SF 0%float) with (S754_zero false).
  destruct (Prim2SF q) as [s | s | | s mant e]; cbn; try discriminate;
    destruct s; cbn; try discriminate; intros _; try reflexivity.
  unfold SFeqb, SFcompare.
  rewrite Z.compare_refl, Pos.compare_cont_refl. reflexivity.
Qed.

Lemma float_of_Z_0 : float_of_Z 0 = 0%float.
Proof. reflexivity. Qed.

Lemma float_of_Z_1 : float_of_Z 1 = 1%float.
Proof. reflexivity. Qed.

Lemma float_of_Z_10 : float_of_Z 10 = 10%float.
Proof. reflexivity. Qed.

Lemma sum_from_float (ls : list float) (a : float) :
  fold_left py_add (map PFloat ls) (PFloat a) = PFloat (fold_left PrimFloat.add ls a).
Proof.
  revert a. induction ls as [| l ls IH]; intros a; simpl; [reflexivity |].
  apply IH.
Qed.

Lemma sum_from_int_0 (ls : list float) :
  ls <> [] ->
  fold_left py_add (map PFloat ls) (PInt 0) =
  PFloat (fold_left PrimFloat.add ls 0%float).
Proof.
  destruct ls as [| l ls]; [congruence | intros _].
  simpl. rewrite float_of_Z_0. apply sum_from_float.
Qed.

Lemma truediv_by_count (s : float) (n : nat) :
  (1 <= n)%nat ->
  py_truediv (PFloat s) (PInt (Z.of_nat n)) =
  Ok (PrimFloat.div s (float_of_Z (Z.of_nat n))).
Proof.
  intros Hn. unfold py_truediv, py_is_zero.
  destruct (Z.eqb_spec (Z.of_nat n) 0) as [E | _]; [lia | reflexivity].
Qed.

Lemma count_from_length (i : Z) (n : nat) : List.length (count_from i n) = n.
Proof.
  revert i. induction n as [| n IH]; intros i; simpl; [reflexivity |].
  now rewrite IH.
Qed.

Lemma range_count_from (lo : Z) (n : nat) :
  map (fun i => lo + Z.of_nat i) (seq 0 n) = count_from lo n.
Proof.
  revert lo. induction n as [| n IH]; intros lo; [reflexivity |].
  cbn [seq map count_from]. rewrite Z.add_0_r. f_equal.
  rewrite <- seq_shift, map_map, <- IH.
  apply map_ext. intros k. lia.
Qed.

Lemma In_count_from (i : Z) (n : nat) (e : Z) :
  In e (count_from i n) <-> i <= e < i + Z.of_nat n.
Proof.
  revert i. induction n as [| n IH]; intros i; simpl.
  - lia.
  - rewrite IH. lia.
Qed.

(** ** Reading logs *)

Section Logs.

Context {rt : Runtime}.

Lemma reported_losses_app (l1 l2 : list Event) :
  reported_losses (l1 ++ l2) = reported_losses l1 ++ reported_losses l2.
Proof.
  induction l1 as [| e l1 IH]; [reflexivity |].
  destruct e as [m | | | | | | | | | | | | |]; simpl; try exact IH.
  destruct m; simpl; try exact IH. now rewrite IH.
Qed.

Lemma saves_app (l1 l2 : list Event) : saves (l1 ++ l2) = saves l1 ++ saves l2.
Proof.
  induction l1 as [| e l1 IH]; [reflexivity |].
  destruct e; simpl; try exact IH. now rewrite IH.
Qed.

Lemma saves_erase (l : list Event) : saves (map erase l) = saves l.
Proof.
  induction l as [| e l IH]; [reflexivity |].
  destruct e as [m | | | | | | | | | | | | |]; simpl; try exact IH.
  - destruct m; simpl; exact IH.
  - now rewrite IH.
Qed.

Lemma saves_batch_shapes (g : Globals) (epoch : Z) (grad : bool) (ks : list Z) :
  saves (flat_map (fun i => batch_events g epoch i grad 0%float) ks) = [].
Proof.
  induction ks as [| k ks IH]; [reflexivity |]. simpl. exact IH.
Qed.

Lemma saves_train_shape (g : Globals) (epoch : Z) (grad : bool) (n : nat) :
  saves (train_shape g epoch grad n) = [].
Proof.
  unfold train_shape. rewrite saves_app, saves_batch_shapes. reflexivity.
Qed.

Lemma saves_test_shape (g : Globals) (n : nat) : saves (test_shape g n) = [].
Proof.
  unfold test_shape. rewrite saves_app. simpl. rewrite app_nil_r.
  induction n as [| n IH]; [reflexivity |]. simpl. exact IH.
Qed.

End Logs.

(** ** The training pass *)

Section Training.

Context {rt : Runtime}.

Ltac run_monad :=
  cbv beta iota zeta delta
    [to_device optimizer_zero_grad call_model criterion loss_backward
     optimizer_step print torch_save emit lift bind ret raise
     set_log set_model set_optimizer set_grad_enabled
     model optimizer grad_enabled train_passes test_passes log fst snd].

(** One batch: the loss of the batch is added to the running total and the
    world moves by the eight steps, in their order. *)
Lemma train_batch_eq (g : Globals) (epoch : Z) (acc : pynum) (i : Z)
    (b : Tensor * Tensor) (w : World) :
  train_batch g epoch acc (i, b) w =
  (Ok (py_add acc (PFloat (batch_loss g w b))), after_batch g epoch i b w).
Proof.
  destruct w as [m o gr tp te l]. destruct b as [x y].
  unfold train_batch, after_batch, batch_loss, batch_loss_tensor, batch_events.
  run_monad.
  destruct (step o _) as [o' m'].
  repeat rewrite <- app_assoc. reflexivity.
Qed.

(** The loop of [train] from iteration [i] on. *)
Lemma train_loop_spec (g : Globals) (epoch : Z) :
  forall (bs : list (Tensor * Tensor)) (i : Z) (acc : pynum) (w : World),
  exists (w' : World) (evs : list Event),
    for_fold (enumerate i bs) (train_batch g epoch) acc w =
      (Ok (fold_left py_add (map PFloat (reported_losses evs)) acc), w') /\
    log w' = log w ++ evs /\
    List.length (reported_losses evs) = List.length bs /\
    map erase evs =
      flat_map (fun k => batch_events g epoch k (grad_enabled w) 0%float)
        (count_from i (List.length bs)) /\
    grad_enabled w' = grad_enabled w /\
    train_passes w' = train_passes w /\
    test_passes w' = test_passes w.
Proof.
  induction bs as [| b bs IH]; intros i acc w.
  - exists w, []. cbn. rewrite app_nil_r. repeat split; reflexivity.
  - destruct (IH (i + 1) (py_add acc (PFloat (batch_loss g w b)))
                (after_batch g epoch i b w))
      as (w' & evs & Hrun & Hlog & Hlen & Hshape & Hg & Htr & Hte).
    exists w', (batch_events g epoch i (grad_enabled w) (batch_loss g w b) ++ evs).
    cbn [enumerate for_fold]. unfold bind at 1. rewrite train_batch_eq, Hrun.
    repeat split.
    + rewrite Hlog. cbn [after_batch log]. now rewrite <- app_assoc.
    + cbn. now rewrite Hlen.
    + cbn [List.length count_from flat_map]. rewrite map_app, Hshape. reflexivity.
    + exact Hg.
    + exact Htr.
    + exact Hte.
Qed.

(** A training pass over at least one batch completes, and its last line
    shows the mean of the losses shown on its batch lines. *)
Lemma train_spec (g : Globals) (epoch : Z) (w : World) :
  (1 <= dl_len (training_data_loader g))%nat ->
  exists (w' : World) (evs : list Event),
    train g epoch w = (Ok tt, w') /\
    log w' = log w ++ evs ++ [Print (MsgEpoch epoch (mean (reported_losses evs)))] /\
    List.length (reported_losses evs) = dl_len (training_data_loader g) /\
    map erase (evs ++ [Print (MsgEpoch epoch (mean (reported_losses evs)))]) =
      train_shape g epoch (grad_enabled w) (dl_len (training_data_loader g)) /\
    grad_enabled w' = grad_enabled w /\
    test_passes w' = test_passes w.
Proof.
  intros Hn.
  set (w1 := {| model := model w; optimizer := optimizer w;
                grad_enabled := grad_enabled w;
                train_passes := S (train_passes w);
                test_passes := test_passes w; log := log w |}).
  destruct (train_loop_spec g epoch
              (batches (training_data_loader g) (train_passes w)) 1 (PInt 0) w1)
    as (w' & evs & Hrun & Hlog & Hlen & Hshape & Hg & _ & Hte).
  assert (Hcount : List.length (batches (training_data_loader g) (train_passes w)) =
                   dl_len (training_data_loader g)).
  { unfold batches. now rewrite length_map, length_seq. }
  rewrite Hcount in Hlen, Hshape.
  assert (Hne : reported_losses evs <> []).
  { intros E. rewrite E in Hlen. cbn in Hlen. lia. }
  exists (set_log (log w' ++ [Print (MsgEpoch epoch (mean (reported_losses evs)))]) w'),
         evs.
  repeat split.
  - unfold train, iter_training. unfold bind at 1. fold w1.
    unfold bind at 1. rewrite Hrun.
    rewrite (sum_from_int_0 _ Hne).
    unfold bind at 1, lift, len. rewrite truediv_by_count by exact Hn.
    unfold mean. rewrite Hlen. reflexivity.
  - cbn. rewrite Hlog. cbn. now rewrite <- app_assoc.
  - exact Hlen.
  - unfold train_shape. rewrite map_app, Hshape. reflexivity.
  - exact Hg.
  - exact Hte.
Qed.

(** A training pass over no batch stops at the division of line 90, before
    anything is printed. *)
Lemma train_empty (g : Globals) (epoch : Z) (w : World) :
  dl_len (training_data_loader g) = O ->
  fst (train g epoch w) = Raise ZeroDivisionError /\
  log (snd (train g epoch w)) = log w /\
  model (snd (train g epoch w)) = model w.
Proof.
  intros Hn. unfold train, iter_training, batches, len. rewrite Hn.
  cbn. repeat split; reflexivity.
Qed.

End Training.

(** ** The evaluation pass *)

Section Evaluation.

Context {rt : Runtime}.

Ltac run_monad :=
  cbv beta iota zeta delta
    [to_device optimizer_zero_grad call_model criterion loss_backward
     optimizer_step print torch_save emit lift bind ret raise
     set_log set_model set_optimizer set_grad_enabled
     model optimizer grad_enabled train_passes test_passes log fst snd].

(** Line 102 on a positive loss whose reciprocal is positive. *)
Lemma psnr_of_pos (m : float) :
  PrimFloat.ltb 0%float m = true ->
  PrimFloat.ltb 0%float (PrimFloat.div 1%float m) = true ->
  psnr_of m = Ok (PFloat (psnr_db m)).
Proof.
  intros Hm Hq. unfold psnr_of, py_truediv, py_is_zero.
  rewrite (pos_not_zero m Hm). cbn [py_float]. rewrite float_of_Z_1.
  unfold log10. rewrite (pos_not_nan _ Hq), Hq. unfold psnr_db.
  destruct (PrimFloat.eqb (PrimFloat.div 1%float m) infinity); reflexivity.
Qed.

(** Line 102 on a zero loss. *)
Lemma psnr_of_zero (m : float) :
  PrimFloat.eqb m 0%float = true -> psnr_of m = Raise ZeroDivisionError.
Proof.
  intros Hm. unfold psnr_of, py_truediv, py_is_zero. now rewrite Hm.
Qed.

Lemma psnr_sum_all_ok (f : float -> float) (ms : list float) :
  Forall (fun m => psnr_of m = Ok (PFloat (f m))) ms ->
  forall acc,
    psnr_sum ms acc =
    (Ok (fold_left py_add (map PFloat (map f ms)) acc), List.length ms).
Proof.
  induction 1 as [| m ms Hm _ IH]; intros acc; [reflexivity |].
  cbn [psnr_sum]. rewrite Hm, IH. reflexivity.
Qed.

Lemma psnr_sum_first_raise (ms pre post : list float) (z : float) (e : exn) :
  ms = pre ++ z :: post ->
  Forall (fun m => exists p, psnr_of m = Ok p) pre ->
  psnr_of z = Raise e ->
  forall acc,
    fst (psnr_sum ms acc) = Raise e /\
    snd (psnr_sum ms acc) = S (List.length pre).
Proof.
  intros -> Hpre Hz. induction Hpre as [| m pre [p Hm] _ IH]; intros acc.
  - cbn. rewrite Hz. split; reflexivity.
  - cbn [app psnr_sum]. rewrite Hm.
    destruct (IH (py_add acc p)) as [Hr Hk].
    destruct (psnr_sum (pre ++ z :: post) (py_add acc p)) as [r k].
    cbn in *. subst. split; reflexivity.
Qed.

(** One batch of the evaluation loop, with gradient tracking off. *)
Lemma test_batch_eq (g : Globals) (acc : pynum) (b : Tensor * Tensor) (w : World) :
  grad_enabled w = false ->
  test_batch g acc b w =
  (match psnr_of (batch_mse g w b) with
   | Ok p => Ok (py_add acc p)
   | Raise e => Raise e
   end,
   set_log (log w ++ eval_events g) w).
Proof.
  destruct w as [m o gr tp te l]. destruct b as [x y].
  cbn [grad_enabled]. intros ->.
  unfold test_batch, batch_mse, eval_events. run_monad.
  repeat rewrite <- app_assoc.
  destruct (psnr_of _); reflexivity.
Qed.

(** The loop of [test]: the total or the first exception, and one group of
    events per batch started. *)
Lemma test_loop_eq (g : Globals) :
  forall (bs : list (Tensor * Tensor)) (acc : pynum) (w : World),
    grad_enabled w = false ->
    for_fold bs (test_batch g) acc w =
    (fst (psnr_sum (map (batch_mse g w) bs) acc),
     set_log (log w ++
              concat (repeat (eval_events g)
                        (snd (psnr_sum (map (batch_mse g w) bs) acc)))) w).
Proof.
  induction bs as [| b bs IH]; intros acc w Hg.
  - cbn. unfold ret, set_log. rewrite app_nil_r. destruct w; reflexivity.
  - cbn [for_fold map psnr_sum]. unfold bind at 1.
    rewrite test_batch_eq by exact Hg.
    destruct (psnr_of (batch_mse g w b)) as [p | e].
    + rewrite IH by exact Hg.
      change (map (batch_mse g (set_log (log w ++ eval_events g) w)) bs)
        with (map (batch_mse g w) bs).
      destruct (psnr_sum (map (batch_mse g w) bs) (py_add acc p)) as [r k].
      cbn. unfold set_log. cbn. now rewrite <- app_assoc.
    + cbn. rewrite ?app_nil_r. reflexivity.
Qed.

(** [test] in closed form. *)
Lemma test_eq (g : Globals) (w : World) :
  test g w =
  match fst (psnr_sum (eval_losses g w) (PInt 0)) with
  | Raise e => (Raise e, after_eval g w)
  | Ok s =>
      match py_truediv s (PInt (len (testing_data_loader g))) with
      | Raise e => (Raise e, after_eval g w)
      | Ok avg =>
          (Ok tt, set_log (log (after_eval g w) ++ [Print (MsgPsnr avg)])
                    (after_eval g w))
      end
  end.
Proof.
  destruct w as [m o gr tp te l].
  unfold test, with_no_grad, iter_testing.
  cbv beta iota zeta delta
    [bind set_grad_enabled model optimizer grad_enabled train_passes test_passes log].
  rewrite test_loop_eq by reflexivity.
  unfold eval_losses, after_eval, batch_mse.
  cbn [model optimizer grad_enabled train_passes test_passes log].
  destruct (psnr_sum _ (PInt 0)) as [[s | e] k]; cbn [fst snd]; [| reflexivity].
  unfold lift, print, emit.
  destruct (py_truediv s (PInt (len (testing_data_loader g)))); reflexivity.
Qed.

Lemma eval_events_ok (g : Globals) (k : nat) :
  Forall eval_event (concat (repeat (eval_events g) k)).
Proof.
  induction k as [| k IH]; cbn; [constructor |].
  repeat (constructor; [exact I |]). exact IH.
Qed.

(** What an evaluation pass leaves alone, however it ends. *)
Lemma test_frame (g : Globals) (w : World) :
  model (snd (test g w)) = model w /\
  optimizer (snd (test g w)) = optimizer w /\
  grad_enabled (snd (test g w)) = grad_enabled w /\
  train_passes (snd (test g w)) = train_passes w /\
  exists evs, log (snd (test g w)) = log w ++ evs /\ Forall eval_event evs.
Proof.
  rewrite test_eq.
  destruct (fst (psnr_sum (eval_losses g w) (PInt 0))) as [s | e].
  - destruct (py_truediv s (PInt (len (testing_data_loader g)))) as [avg | e].
    + cbn. repeat split.
      eexists. split; [now rewrite <- app_assoc |].
      apply Forall_app. split; [apply eval_events_ok |].
      constructor; [exact I | constructor].
    + cbn. repeat split. eexists. split; [reflexivity | apply eval_events_ok].
  - cbn. repeat split. eexists. split; [reflexivity | apply eval_events_ok].
Qed.

Lemma eval_losses_length (g : Globals) (w : World) :
  List.length (eval_losses g w) = dl_len (testing_data_loader g).
Proof. unfold eval_losses, batches. now rewrite !length_map, length_seq. Qed.

(** An evaluation pass that completes printed one line, after one group of
    events per batch. *)
Lemma test_ok_shape (g : Globals) (w w' : World) :
  test g w = (Ok tt, w') ->
  exists evs, log w' = log w ++ evs /\
              map erase evs = test_shape g (dl_len (testing_data_loader g)).
Proof.
  rewrite test_eq.
  destruct (psnr_sum (eval_losses g w) (PInt 0)) as [r k] eqn:E.
  assert (Hk : forall ms acc s k', psnr_sum ms acc = (Ok s, k') -> k' = List.length ms).
  { clear. induction ms as [| m ms IH]; intros acc s k' H; cbn in H.
    - now inversion H.
    - destruct (psnr_of m) as [p | e]; [| discriminate].
      destruct (psnr_sum ms (py_add acc p)) as [r k] eqn:E.
      inversion H; subst. cbn. f_equal. eapply IH. exact E. }
  cbn [fst]. destruct r as [s | e]; [| discriminate].
  apply Hk in E as Hlen. rewrite eval_losses_length in Hlen.
  destruct (py_truediv s (PInt (len (testing_data_loader g)))) as [avg | e];
    [| discriminate].
  intros H. inversion H; subst w'; clear H.
  unfold after_eval. rewrite E. cbn [snd set_log log].
  eexists. split; [now rewrite <- app_assoc |].
  unfold test_shape. rewrite map_app. f_equal. rewrite Hlen.
  clear. induction (dl_len (testing_data_loader g)) as [| n IH]; [reflexivity |].
  cbn. now rewrite IH.
Qed.

(** An evaluation pass over no batch stops at the division of line 104. *)
Lemma test_empty (g : Globals) (w : World) :
  dl_len (testing_data_loader g) = O ->
  fst (test g w) = Raise ZeroDivisionError /\
  log (snd (test g w)) = log w.
Proof.
  intros Hn. rewrite test_eq. unfold after_eval, eval_losses, batches, len.
  rewrite Hn. cbn. rewrite app_nil_r. split; reflexivity.
Qed.

End Evaluation.

(** ** The epoch loop *)

Section Epochs.

Context {rt : Runtime}.

Lemma saves_eval_events (evs : list Event) : Forall eval_event evs -> saves evs = [].
Proof.
  induction 1 as [| e evs He _ IH]; [reflexivity |].
  destruct e as [m | | | | | | | | | [|] | | | |]; cbn in *; try contradiction;
    exact IH.
Qed.

(** Neither pass writes a checkpoint, however it ends. *)
Lemma train_saves (g : Globals) (epoch : Z) (w : World) :
  saves (log (snd (train g epoch w))) = saves (log w).
Proof.
  destruct (dl_len (training_data_loader g)) as [| n] eqn:En.
  - destruct (train_empty g epoch w En) as (_ & Hlog & _). now rewrite Hlog.
  - destruct (train_spec g epoch w) as (w' & evs & Hrun & Hlog & _ & Hshape & _).
    { lia. }
    rewrite Hrun. cbn [snd]. rewrite Hlog, saves_app.
    rewrite <- (saves_erase (evs ++ _)), Hshape, saves_train_shape.
    now rewrite app_nil_r.
Qed.

Lemma test_saves (g : Globals) (w : World) :
  saves (log (snd (test g w))) = saves (log w).
Proof.
  destruct (test_frame g w) as (_ & _ & _ & _ & evs & Hlog & Hev).
  rewrite Hlog, saves_app, (saves_eval_events evs Hev). now rewrite app_nil_r.
Qed.

Lemma epoch_body_saves (g : Globals) (epoch : Z) (w : World) :
  saves (log (snd (epoch_body g epoch w))) = saves (log w).
Proof.
  unfold epoch_body, bind.
  pose proof (train_saves g epoch w) as Ht.
  destruct (train g epoch w) as [[[] | e] w1]; cbn [snd] in *.
  - now rewrite test_saves.
  - exact Ht.
Qed.

Lemma for_each_saves (g : Globals) (es : list Z) :
  forall w, saves (log (snd (for_each es (epoch_body g) w))) = saves (log w).
Proof.
  induction es as [| e es IH]; intros w; [reflexivity |].
  cbn [for_each]. unfold bind at 1.
  pose proof (epoch_body_saves g e w) as Hb.
  destruct (epoch_body g e w) as [[[] | ex] w1]; cbn [snd] in *.
  - now rewrite IH.
  - exact Hb.
Qed.

(** An epoch that completes: its events, and the grad mode it leaves. *)
Lemma epoch_body_ok (g : Globals) (epoch : Z) (w w' : World) :
  epoch_body g epoch w = (Ok tt, w') ->
  exists evs,
    log w' = log w ++ evs /\
    map erase evs = epoch_shape g (grad_enabled w) epoch /\
    grad_enabled w' = grad_enabled w.
Proof.
  unfold epoch_body. unfold bind at 1. intros H.
  destruct (dl_len (training_data_loader g)) as [| n] eqn:En.
  - destruct (train_empty g epoch w En) as (Hr & _).
    destruct (train g epoch w) as [r w1]. cbn in Hr. subst r. discriminate.
  - destruct (train_spec g epoch w) as (w1 & evs & Hrun & Hlog & _ & Hshape & Hg & _).
    { lia. }
    rewrite Hrun in H.
    destruct (test_ok_shape g w1 w' H) as (evs' & Hlog' & Hshape').
    pose proof (test_frame g w1) as (_ & _ & Hg' & _).
    rewrite H in Hg'. cbn [snd] in Hg'.
    exists ((evs ++ [Print (MsgEpoch epoch (mean (reported_losses evs)))]) ++ evs').
    repeat split.
    + rewrite Hlog', Hlog. now rewrite <- !app_assoc.
    + unfold epoch_shape. rewrite map_app, Hshape, Hshape', En. reflexivity.
    + congruence.
Qed.

(** A run of epochs that completes went through every epoch, in order. *)
Lemma for_each_epochs_ok (g : Globals) (es : list Z) :
  forall w w',
    for_each es (epoch_body g) w = (Ok tt, w') ->
    exists evs,
      log w' = log w ++ evs /\
      map erase evs = flat_map (epoch_shape g (grad_enabled w)) es /\
      grad_enabled w' = grad_enabled w.
Proof.
  induction es as [| e es IH]; intros w w' H.
  - cbn in H. inversion H; subst. exists []. now rewrite app_nil_r.
  - cbn [for_each] in H. unfold bind at 1 in H.
    destruct (epoch_body g e w) as [[[] | ex] w1] eqn:E; [| discriminate].
    destruct (epoch_body_ok g e w w1 E) as (evs1 & Hlog1 & Hshape1 & Hg1).
    destruct (IH w1 w' H) as (evs2 & Hlog2 & Hshape2 & Hg2).
    exists (evs1 ++ evs2). repeat split.
    + rewrite Hlog2, Hlog1. now rewrite <- app_assoc.
    + cbn [flat_map]. rewrite map_app, Hshape1, Hshape2, Hg1. reflexivity.
    + congruence.
Qed.

(** An exception in an epoch ends the loop with that exception. *)
Lemma for_each_raise (g : Globals) (done rest : list Z) (e : Z) (ex : exn)
    (w w1 w2 : World) :
  for_each done (epoch_body g) w = (Ok tt, w1) ->
  epoch_body g e w1 = (Raise ex, w2) ->
  for_each (done ++ e :: rest) (epoch_body g) w = (Raise ex, w2).
Proof.
  revert w. induction done as [| d done IH]; intros w Hdone Hbody.
  - cbn in Hdone. inversion Hdone; subst. cbn. unfold bind. now rewrite Hbody.
  - cbn [app for_each] in *. unfold bind at 1 in Hdone. unfold bind at 1.
    destruct (epoch_body g d w) as [[[] | ex'] w'] eqn:E; [| discriminate].
    now apply IH.
Qed.

Lemma epochs_eq (o : Options) : epochs o = count_from 1 (Z.to_nat (nb_epochs o)).
Proof.
  unfold epochs, range. rewrite range_count_from. f_equal. f_equal. lia.
Qed.

(** [run] in terms of the epoch loop. *)
Lemma run_eq (g : Globals) (w : World) :
  run g w =
  match for_each (epochs (opt g)) (epoch_body g) w with
  | (Ok _, w1) =>
      (Ok tt,
       set_log (log w1 ++ [Save (checkpoint_path (nb_epochs (opt g))) (model w1);
                           Print (MsgCheckpoint (checkpoint_path (nb_epochs (opt g))))])
         w1)
  | (Raise e, w1) => (Raise e, w1)
  end.
Proof.
  unfold run, run_epochs. unfold bind at 1.
  change (fun epoch : Z => train g epoch;; test g) with (epoch_body g).
  destruct (for_each (epochs (opt g)) (epoch_body g) w) as [[[] | e] w1];
    [| reflexivity].
  unfold checkpoint, torch_save, print, emit, bind, set_log, checkpoint_path. cbn.
  now rewrite <- app_assoc.
Qed.

End Epochs.

(** ** Lines 13-71 *)

Section Setup.

Context {rt : Runtime}.
Variable new_loader : Z -> Dataset -> Z -> Z -> bool -> DataLoader.

Lemma parse_args_no_help (argv : Argv) (o : Options) :
  parse_args argv = Ok o -> arg_help argv = false /\ help_output argv = [].
Proof.
  unfold parse_args, help_output.
  destruct (arg_help argv); [discriminate | split; reflexivity].
Qed.

Lemma setup_eq (host : Host) (argv : Argv) :
  setup new_loader host argv [] =
  match parse_args argv with
  | Raise e => (Raise e, help_output argv)
  | Ok o =>
      if cuda o && negb (cuda_is_available host)
      then (Raise (Exception "No GPU found, please run without --cuda"),
            [Print (MsgOptions o)])
      else if negb (mps o) && mps_is_available host
      then (Raise (Exception
                     "Found mps device, please run with --mps to enable macOS GPU"),
            [Print (MsgOptions o)])
      else
        match library_setup host o with
        | Some (what, k) =>
            (Raise (LibraryError what),
             firstn k (setup_events o (select_device host o)))
        | None =>
            (Ok (initial_globals new_loader host o, initial_world host o),
             setup_events o (select_device host o))
        end
  end.
Proof.
  unfold setup. unfold bind at 1. unfold run_parser. cbn [app].
  destruct (parse_args argv) as [o | e] eqn:Hp; [| reflexivity].
  destruct (parse_args_no_help argv o Hp) as [_ ->].
  cbv beta iota zeta delta [bind record ret raise library_call raise_if app].
  destruct (cuda o && negb (cuda_is_available host)); [reflexivity |].
  destruct (negb (mps o) && mps_is_available host); [reflexivity |].
  unfold library_setup, initial_model.
  destruct (manual_seed_raises (seed o)); [reflexivity |].
  destruct (get_training_set_raises (upscale_factor o)); [reflexivity |].
  destruct (get_test_set_raises (upscale_factor o)); [reflexivity |].
  destruct (loader_raises (seed o) (get_training_set (upscale_factor o))
              (threads o) (batch_size o) true); [reflexivity |].
  destruct (loader_raises (seed o) (get_test_set (upscale_factor o))
              (threads o) (test_batch_size o) false); [reflexivity |].
  destruct (net_raises (seed o) (upscale_factor o) (select_device host o));
    [reflexivity |].
  destruct (adam_raises
              (model_to (select_device host o) (Net (seed o) (upscale_factor o)))
              (lr o)); reflexivity.
Qed.



End Setup.

(** ** The whole script *)

Section Main.

Context {rt : Runtime}.
Variable new_loader : Z -> Dataset -> Z -> Z -> bool -> DataLoader.

Lemma main_eq (host : Host) (argv : Argv) :
  main new_loader host argv =
  match parse_args argv with
  | Raise e => (Raise e, help_output argv)
  | Ok o =>
      if cuda o && negb (cuda_is_available host)
      then (Raise (Exception "No GPU found, please run without --cuda"),
            [Print (MsgOptions o)])
      else if negb (mps o) && mps_is_available host
      then (Raise (Exception
                     "Found mps device, please run with --mps to enable macOS GPU"),
            [Print (MsgOptions o)])
      else
        match library_setup host o with
        | Some (what, k) =>
            (Raise (LibraryError what),
             firstn k (setup_events o (select_device host o)))
        | None =>
            (fst (run (initial_globals new_loader host o) (initial_world host o)),
             log (snd (run (initial_globals new_loader host o)
                         (initial_world host o))))
        end
  end.
Proof.
  unfold main. rewrite setup_eq.
  destruct (parse_args argv) as [o | e]; [| reflexivity].
  destruct (cuda o && negb (cuda_is_available host)); [reflexivity |].
  destruct (negb (mps o) && mps_is_available host); [reflexivity |].
  destruct (library_setup host o) as [[what k] |]; [reflexivity |].
  destruct (run _ _); reflexivity.
Qed.

Lemma parse_args_flags (argv : Argv) (o : Options) :
  parse_args argv = Ok o -> cuda o = arg_cuda argv /\ mps o = arg_mps argv.
Proof.
  unfold parse_args. destruct (arg_help argv); [discriminate |].
  destruct (arg_upscale_factor argv); [| discriminate].
  intros H. inversion H; subst. split; reflexivity.
Qed.

End Main.

Section Loop.

Context {rt : Runtime}.

(** The loop of [train] leaves the world reached by going through the
    batches one after the other. *)
Lemma train_loop_world (g : Globals) (epoch : Z) :
  forall (bs : list (Tensor * Tensor)) (i : Z) (acc : pynum) (w : World),
  exists total,
    for_fold (enumerate i bs) (train_batch g epoch) acc w =
    (Ok total, train_from g epoch i bs w).
Proof.
  induction bs as [| b bs IH]; intros i acc w.
  - exists acc. reflexivity.
  - cbn [enumerate for_fold train_from]. unfold bind at 1.
    rewrite train_batch_eq. apply IH.
Qed.

(** The loop of [train], exactly: the total is the sum of the losses of the
    batches in order, the world is the one they leave. *)
Lemma train_loop_exact (g : Globals) (epoch : Z) :
  forall (bs : list (Tensor * Tensor)) (i : Z) (acc : pynum) (w : World),
    for_fold (enumerate i bs) (train_batch g epoch) acc w =
    (Ok (fold_left py_add (map PFloat (losses_from g epoch i bs w)) acc),
     train_from g epoch i bs w).
Proof.
  induction bs as [| b bs IH]; intros i acc w; [reflexivity |].
  cbn [enumerate for_fold train_from losses_from map fold_left].
  unfold bind at 1. rewrite train_batch_eq. apply IH.
Qed.

Lemma losses_from_length (g : Globals) (epoch : Z) :
  forall (bs : list (Tensor * Tensor)) (i : Z) (w : World),
    List.length (losses_from g epoch i bs w) = List.length bs.
Proof.
  induction bs as [| b bs IH]; intros i w; [reflexivity |].
  cbn [losses_from List.length]. now rewrite IH.
Qed.

(** [train] over at least one batch, exactly. *)
Lemma train_exact (g : Globals) (epoch : Z) (w : World) :
  (1 <= dl_len (training_data_loader g))%nat ->
  train g epoch w =
  (Ok tt,
   set_log
     (log (train_from g epoch 1
             (batches (training_data_loader g) (train_passes w)) (begin_pass w)) ++
      [Print (MsgEpoch epoch
                (mean (losses_from g epoch 1
                         (batches (training_data_loader g) (train_passes w))
                         (begin_pass w))))])
     (train_from g epoch 1
        (batches (training_data_loader g) (train_passes w)) (begin_pass w))).
Proof.
  intros Hn.
  pose proof (losses_from_length g epoch
                (batches (training_data_loader g) (train_passes w)) 1
                (begin_pass w)) as Hlen.
  assert (Hcount : List.length (batches (training_data_loader g) (train_passes w)) =
                   dl_len (training_data_loader g)).
  { unfold batches. now rewrite length_map, length_seq. }
  rewrite Hcount in Hlen.
  assert (Hne : losses_from g epoch 1
                  (batches (training_data_loader g) (train_passes w))
                  (begin_pass w) <> []).
  { intros E. rewrite E in Hlen. cbn in Hlen. lia. }
  unfold train, iter_training. unfold bind at 1. fold (begin_pass w).
  unfold bind at 1. rewrite train_loop_exact.
  rewrite (sum_from_int_0 _ Hne).
  unfold bind at 1, lift, len. rewrite truediv_by_count by exact Hn.
  unfold mean. rewrite Hlen. reflexivity.
Qed.

(** With an empty loader on either side, the first epoch ends the run. *)
Lemma first_epoch_raises (g : Globals) (w : World) :
  1 <= nb_epochs (opt g) ->
  dl_len (training_data_loader g) = O \/ dl_len (testing_data_loader g) = O ->
  fst (run g w) = Raise ZeroDivisionError /\
  saves (log (snd (run g w))) = saves (log w).
Proof.
  intros Hn Hempty.
  assert (Hbody : fst (epoch_body g 1 w) = Raise ZeroDivisionError).
  { unfold epoch_body, bind.
    destruct (dl_len (training_data_loader g)) as [| n] eqn:En.
    - destruct (train_empty g 1 w En) as (Hr & _).
      destruct (train g 1 w) as [r w1]. cbn in Hr. now subst r.
    - destruct (train_spec g 1 w) as (w1 & evs & Hrun & _); [lia |].
      rewrite Hrun. destruct Hempty as [H | H]; [discriminate |].
      apply (test_empty g w1 H). }
  pose proof (epoch_body_saves g 1 w) as Hs.
  destruct (epoch_body g 1 w) as [r w1] eqn:Eb. cbn [fst snd] in Hbody, Hs. subst r.
  destruct (Z.to_nat (nb_epochs (opt g))) as [| k] eqn:Ek; [lia |].
  pose proof (for_each_raise g [] (count_from (1 + 1) k) 1 ZeroDivisionError
                w w w1 eq_refl Eb) as Hfe.
  cbn [app] in Hfe.
  rewrite run_eq, epochs_eq, Ek. cbn [count_from]. rewrite Hfe.
  split; [reflexivity | exact Hs].
Qed.

End Loop.

(** * The specification, claim by claim *)

Section Configuration.

Context {rt : Runtime}.
Variable new_loader : Z -> Dataset -> Z -> Z -> bool -> DataLoader.

(** C1: For every configuration that passes validation, the resolved device
    is one of CPU, GPU and platform accelerator, chosen by precedence: GPU if
    [--cuda] was given; else the platform accelerator if [--mps] was given
    and it is available; else CPU.  The device chosen is available on the
    host and is the one the model is built on. *)
Theorem device_resolution (host : Host) (argv : Argv)
    (g : Globals) (w : World) (l : list Event) :
  setup new_loader host argv [] = (Ok (g, w), l) ->
  device g =
    (if arg_cuda argv then gpu
     else if arg_mps argv && mps_is_available host then mps_dev
     else cpu) /\
  (device g = cpu \/ device g = gpu \/ device g = mps_dev) /\
  (device g = gpu -> cuda_is_available host = true) /\
  (device g = mps_dev -> mps_is_available host = true) /\
  In (NewNet (upscale_factor (opt g)) (device g)) l.
Proof.
  rewrite setup_eq.
  destruct (parse_args argv) as [o | e] eqn:Ep; [| discriminate].
  destruct (parse_args_flags argv o Ep) as [Hc Hm].
  destruct (cuda o && negb (cuda_is_available host)) eqn:G1; [discriminate |].
  destruct (negb (mps o) && mps_is_available host) eqn:G2; [discriminate |].
  destruct (library_setup host o) as [[what k] |]; [discriminate |].
  intros H. inversion H; subst g w l; clear H.
  cbn [device opt initial_globals]. unfold select_device.
  rewrite <- Hc, <- Hm.
  destruct (cuda o), (mps o), (cuda_is_available host), (mps_is_available host);
    cbn in *; try discriminate;
    (split; [reflexivity |]);
    (split; [auto |]);
    (split; [intros; congruence |]);
    (split; [intros; congruence |]);
    tauto.
Qed.

(** C2, as amended: unless [-h] or [--help] is given, [--cuda] without a GPU,
    a platform accelerator without [--mps], or a missing [--upscale_factor]
    ends the process with an uncaught exception and a non-zero status before
    any dataset is loaded: neither the dataset-loading line nor a dataset
    call is in the log. *)
Theorem invalid_configuration_is_fatal (host : Host) (argv : Argv) :
  arg_help argv = false ->
  (arg_cuda argv = true /\ cuda_is_available host = false) \/
  (mps_is_available host = true /\ arg_mps argv = false) \/
  arg_upscale_factor argv = None ->
  (exists e, fst (main new_loader host argv) = Raise e) /\
  exit_status (fst (main new_loader host argv)) <> 0 /\
  ~ In (Print MsgLoading) (snd (main new_loader host argv)) /\
  (forall uf, ~ In (GetTrainingSet uf) (snd (main new_loader host argv)) /\
              ~ In (GetTestSet uf) (snd (main new_loader host argv))).
Proof.
  intros Hh H. rewrite main_eq. unfold parse_args, help_output. rewrite Hh.
  destruct (arg_upscale_factor argv) as [uf |].
  - cbn [cuda mps].
    destruct (arg_cuda argv), (cuda_is_available host), (arg_mps argv),
             (mps_is_available host);
      cbn [andb negb fst snd exit_status];
      try (exfalso; destruct H as [[? ?] | [[? ?] | ?]]; discriminate);
      (split; [eexists; reflexivity |]);
      (split; [discriminate |]);
      (split; [intros [E | []]; discriminate |]);
      intros uf'; split; intros [E | []]; discriminate.
  - cbn. split; [eexists; reflexivity |]. split; [discriminate |].
    split; [tauto |]. intros uf'. tauto.
Qed.

End Configuration.

Lemma device_resolution_witness :
  exists g w l,
    setup (rt := Toy.runtime) Toy.new_loader Toy.gpu_host Toy.argv_cuda [] =
      (Ok (g, w), l) /\
    device g = gpu.
Proof.
  destruct (setup (rt := Toy.runtime) Toy.new_loader Toy.gpu_host Toy.argv_cuda [])
    as [[[g w] | e] l] eqn:E.
  - exists g, w, l. split; [reflexivity |].
    exact (proj1 (device_resolution (rt := Toy.runtime) Toy.new_loader
                    Toy.gpu_host Toy.argv_cuda g w l E)).
  - exfalso. vm_compute in E. discriminate.
Defined.

Lemma invalid_configuration_is_fatal_witness :
  arg_help Toy.argv_cuda = false /\
  (arg_cuda Toy.argv_cuda = true /\ cuda_is_available Toy.host = false) /\
  exit_status (fst (main (rt := Toy.runtime) Toy.new_loader Toy.host Toy.argv_cuda))
    <> 0.
Proof.
  split; [reflexivity |]. split; [split; reflexivity |].
  exact (proj1 (proj2 (invalid_configuration_is_fatal (rt := Toy.runtime)
                         Toy.new_loader Toy.host Toy.argv_cuda eq_refl
                         (or_introl (conj eq_refl eq_refl))))).
Defined.

(** C2, as stated, fails: [main.py -h] has no [--upscale_factor], prints the
    help and exits with status 0. *)
Lemma invalid_configuration_counterexample :
  arg_upscale_factor Toy.argv_help = None /\
  main (rt := Toy.runtime) Toy.new_loader Toy.host Toy.argv_help =
    (Raise (SystemExit 0), [Print MsgHelp]) /\
  exit_status
    (fst (main (rt := Toy.runtime) Toy.new_loader Toy.host Toy.argv_help)) = 0.
Proof. split; [reflexivity |]. split; reflexivity. Qed.

Section Passes.

Context {rt : Runtime}.


(** C4, as amended: In an evaluation pass over at least one batch, where
    every batch has a loss [mse > 0] whose reciprocal [1 / mse] is positive
    too (so [mse] is not infinite), [test] completes and the average on its
    summary line is the arithmetic mean over the batches of
    [10 * log10(1 / mse)]. *)
Theorem average_psnr_is_mean (g : Globals) (w : World) :
  (1 <= dl_len (testing_data_loader g))%nat ->
  Forall (fun mse => PrimFloat.ltb 0%float mse = true /\
                     PrimFloat.ltb 0%float (PrimFloat.div 1%float mse) = true)
    (eval_losses g w) ->
  exists w' : World,
    test g w = (Ok tt, w') /\
    log w' = log w ++
             concat (repeat (eval_events g) (dl_len (testing_data_loader g))) ++
             [Print (MsgPsnr (mean (map psnr_db (eval_losses g w))))] /\
    render (MsgPsnr (mean (map psnr_db (eval_losses g w)))) =
      "===> Avg. PSNR: " +++
      format_4f (mean (map psnr_db (eval_losses g w))) +++ " dB".
Proof.
  intros Hn Hpos.
  assert (Hok : Forall (fun m => psnr_of m = Ok (PFloat (psnr_db m))) (eval_losses g w)).
  { eapply Forall_impl; [| exact Hpos]. intros m [Hm Hq]. now apply psnr_of_pos. }
  pose proof (psnr_sum_all_ok psnr_db _ Hok (PInt 0)) as Hsum.
  pose proof (eval_losses_length g w) as Hlen.
  assert (Hne : map psnr_db (eval_losses g w) <> []).
  { intros E. apply (f_equal (@List.length float)) in E.
    rewrite length_map, Hlen in E. cbn in E. lia. }
  rewrite (sum_from_int_0 _ Hne), Hlen in Hsum.
  eexists. split; [| split; [| reflexivity]].
  - rewrite test_eq, Hsum. cbn [fst]. unfold len.
    rewrite truediv_by_count by exact Hn. reflexivity.
  - unfold after_eval. rewrite Hsum. cbn [set_log log snd].
    rewrite <- app_assoc. unfold mean. now rewrite length_map, Hlen.
Qed.

(** C5: A batch whose loss is exactly zero makes line 102 divide by zero;
    when it is the first batch of the pass whose PSNR is undefined, [test]
    ends with that [ZeroDivisionError], nothing catches it, and the run ends
    with it, no checkpoint written. *)
Theorem zero_mse_is_fatal (g : Globals) (w0 w1 w : World)
    (done rest : list Z) (epoch : Z) (pre post : list (Tensor * Tensor))
    (b : Tensor * Tensor) :
  epochs (opt g) = done ++ epoch :: rest ->
  for_each done (epoch_body g) w0 = (Ok tt, w1) ->
  train g epoch w1 = (Ok tt, w) ->
  batches (testing_data_loader g) (test_passes w) = pre ++ b :: post ->
  Forall (fun b' => exists p, psnr_of (batch_mse g w b') = Ok p) pre ->
  PrimFloat.eqb (batch_mse g w b) 0%float = true ->
  psnr_of (batch_mse g w b) = Raise ZeroDivisionError /\
  fst (test g w) = Raise ZeroDivisionError /\
  model (snd (test g w)) = model w /\
  fst (run g w0) = Raise ZeroDivisionError /\
  exit_status (fst (run g w0)) = 1 /\
  saves (log (snd (run g w0))) = saves (log w0).
Proof.
  intros Hep Hdone Htrain Hbs Hpre Hz.
  pose proof (psnr_of_zero _ Hz) as Hraise.
  assert (Htest : fst (test g w) = Raise ZeroDivisionError).
  { rewrite test_eq.
    destruct (psnr_sum_first_raise (eval_losses g w)
                (map (batch_mse g w) pre) (map (batch_mse g w) post)
                (batch_mse g w b) ZeroDivisionError) with (acc := PInt 0)
      as [Hr _].
    - unfold eval_losses. rewrite Hbs, map_app. reflexivity.
    - apply Forall_map. exact Hpre.
    - exact Hraise.
    - rewrite Hr. reflexivity. }
  assert (Hbody : epoch_body g epoch w1 = (Raise ZeroDivisionError, snd (test g w))).
  { unfold epoch_body, bind. rewrite Htrain.
    destruct (test g w) as [r w2]. cbn in Htest. now subst r. }
  pose proof (for_each_raise g done rest epoch _ w0 w1 _ Hdone Hbody) as Hloop.
  pose proof (for_each_saves g (epochs (opt g)) w0) as Hsaves.
  assert (Hrun : run g w0 = (Raise ZeroDivisionError, snd (test g w))).
  { rewrite run_eq, Hep, Hloop. reflexivity. }
  rewrite Hep, Hloop in Hsaves. rewrite Hrun.
  repeat split; try assumption. apply (test_frame g w).
Qed.

(** C9: With no training batch, the average of line 90 divides the total by
    a count of zero and [train] ends with [ZeroDivisionError] before printing
    anything; with no evaluation batch, so does the average of line 104 in
    [test].  From the first epoch on, either ends the run. *)
Theorem empty_loader_divides_by_zero (g : Globals) (epoch : Z) (w : World) :
  (dl_len (training_data_loader g) = O ->
   fst (train g epoch w) = Raise ZeroDivisionError /\
   log (snd (train g epoch w)) = log w) /\
  (dl_len (testing_data_loader g) = O ->
   fst (test g w) = Raise ZeroDivisionError /\
   log (snd (test g w)) = log w) /\
  (dl_len (training_data_loader g) = O \/ dl_len (testing_data_loader g) = O ->
   1 <= nb_epochs (opt g) ->
   fst (run g w) = Raise ZeroDivisionError /\
   saves (log (snd (run g w))) = saves (log w)).
Proof.
  split; [| split].
  - intros H. destruct (train_empty g epoch w H) as (Hr & Hl & _). now split.
  - intros H. exact (test_empty g w H).
  - intros H Hn. exact (first_epoch_raises g w Hn H).
Qed.

End Passes.


(** C4, as stated, fails: with no evaluation batch every batch has a positive
    loss and [test] ends at the division of line 104; with one batch whose
    loss is infinite, positive as well, it ends at [log10(0.0)]. *)
Lemma average_psnr_counterexample :
  (Forall (fun mse => PrimFloat.ltb 0%float mse = true)
     (eval_losses (rt := Toy.runtime) Toy.no_test_data (Toy.world 1%float)) /\
   fst (test (rt := Toy.runtime) Toy.no_test_data (Toy.world 1%float)) =
     Raise ZeroDivisionError) /\
  (Forall (fun mse => PrimFloat.ltb 0%float mse = true)
     (eval_losses (rt := Toy.runtime) Toy.overflowed (Toy.world infinity)) /\
   eval_losses (rt := Toy.runtime) Toy.overflowed (Toy.world infinity) = [infinity] /\
   fst (test (rt := Toy.runtime) Toy.overflowed (Toy.world infinity)) =
     Raise ValueError).
Proof.
  split.
  - split; [constructor | reflexivity].
  - split; [| split; reflexivity].
    constructor; [reflexivity | constructor].
Qed.

Lemma average_psnr_is_mean_witness :
  (1 <= dl_len (testing_data_loader Toy.small))%nat /\
  Forall (fun mse => PrimFloat.ltb 0%float mse = true /\
                     PrimFloat.ltb 0%float (PrimFloat.div 1%float mse) = true)
    (eval_losses (rt := Toy.runtime) Toy.small (Toy.world 2%float)) /\
  exists w', test (rt := Toy.runtime) Toy.small (Toy.world 2%float) = (Ok tt, w').
Proof.
  assert (H1 : (1 <= dl_len (testing_data_loader Toy.small))%nat) by (cbn; lia).
  assert (H2 : Forall (fun mse => PrimFloat.ltb 0%float mse = true /\
                                  PrimFloat.ltb 0%float (PrimFloat.div 1%float mse) = true)
                 (eval_losses (rt := Toy.runtime) Toy.small (Toy.world 2%float))).
  { constructor; [split; reflexivity | constructor]. }
  split; [exact H1 | split; [exact H2 |]].
  destruct (average_psnr_is_mean (rt := Toy.runtime) Toy.small
              (Toy.world 2%float) H1 H2) as (w' & Hrun & _).
  exists w'. exact Hrun.
Defined.

Lemma zero_mse_is_fatal_witness :
  exists w,
    train (rt := Toy.runtime) Toy.exact_fit 1 (Toy.world 1%float) = (Ok tt, w) /\
    PrimFloat.eqb (batch_mse Toy.exact_fit w (3%float, 3%float)) 0%float = true /\
    fst (run (rt := Toy.runtime) Toy.exact_fit (Toy.world 1%float)) =
      Raise ZeroDivisionError.
Proof.
  eexists. split; [vm_compute; reflexivity |]. split; [reflexivity |].
  refine (proj1 (proj2 (proj2 (proj2
    (zero_mse_is_fatal (rt := Toy.runtime) Toy.exact_fit
       (Toy.world 1%float) (Toy.world 1%float) _ [] [] 1 [] []
       (3%float, 3%float) _ _ _ _ _ _))))).
  - reflexivity.
  - reflexivity.
  - vm_compute; reflexivity.
  - reflexivity.
  - constructor.
  - reflexivity.
Defined.

Lemma empty_loader_divides_by_zero_witness :
  dl_len (testing_data_loader Toy.no_test_data) = O /\
  1 <= nb_epochs (opt Toy.no_test_data) /\
  fst (test (rt := Toy.runtime) Toy.no_test_data (Toy.world 1%float)) =
    Raise ZeroDivisionError /\
  fst (run (rt := Toy.runtime) Toy.no_test_data (Toy.world 1%float)) =
    Raise ZeroDivisionError.
Proof.
  assert (H0 : dl_len (testing_data_loader Toy.no_test_data) = O) by reflexivity.
  assert (H1 : 1 <= nb_epochs (opt Toy.no_test_data)) by (cbn; lia).
  destruct (empty_loader_divides_by_zero (rt := Toy.runtime) Toy.no_test_data 1
              (Toy.world 1%float)) as (_ & Htest & Hrun).
  split; [exact H0 | split; [exact H1 | split]].
  - exact (proj1 (Htest H0)).
  - exact (proj1 (Hrun (or_intror H0) H1)).
Defined.

Section Run.

Context {rt : Runtime}.
Variable new_loader : Z -> Dataset -> Z -> Z -> bool -> DataLoader.


(** C10: When the epoch count is zero and the run reaches the epoch loop
    (lines 13-71 have completed), nothing happens between building the
    optimiser and the checkpoint: no batch is trained on or evaluated, the
    model saved to [model_epoch_0.pth] is the freshly built one, and the
    process ends with status 0. *)
Theorem zero_epochs_still_checkpoints (host : Host) (argv : Argv)
    (g : Globals) (w : World) (l : list Event) :
  setup new_loader host argv [] = (Ok (g, w), l) ->
  nb_epochs (opt g) = 0 ->
  main new_loader host argv =
    (Ok tt,
     l ++ [Save "model_epoch_0.pth" (model w);
           Print (MsgCheckpoint "model_epoch_0.pth")]) /\
  exit_status (fst (main new_loader host argv)) = 0 /\
  model w = model_to (device g) (Net (seed (opt g)) (upscale_factor (opt g))) /\
  l = setup_events (opt g) (device g) /\
  saves (snd (main new_loader host argv)) = [("model_epoch_0.pth"%string, model w)].
Proof.
  intros Hs Hn.
  assert (Hw : log w = l /\
               model w = model_to (device g)
                           (Net (seed (opt g)) (upscale_factor (opt g))) /\
               l = setup_events (opt g) (device g)).
  { rewrite setup_eq in Hs.
    destruct (parse_args argv) as [o | e]; [| discriminate].
    destruct (cuda o && negb (cuda_is_available host)); [discriminate |].
    destruct (negb (mps o) && mps_is_available host); [discriminate |].
    destruct (library_setup host o) as [[what k] |]; [discriminate |].
    inversion Hs; subst. repeat split. }
  destruct Hw as (Hlog & Hmodel & Hl).
  assert (Hmain : main new_loader host argv =
    (Ok tt,
     l ++ [Save "model_epoch_0.pth" (model w);
           Print (MsgCheckpoint "model_epoch_0.pth")])).
  { unfold main. rewrite Hs, run_eq, epochs_eq, Hn.
    cbn [Z.to_nat count_from for_each ret set_log log]. rewrite Hlog.
    reflexivity. }
  split; [exact Hmain |]. split; [now rewrite Hmain |].
  split; [exact Hmodel |]. split; [exact Hl |].
  rewrite Hmain. cbn [snd]. rewrite saves_app, Hl. reflexivity.
Qed.

End Run.

Section Order.

Context {rt : Runtime}.

(** C7: The epochs are 1, 2, ..., [nb_epochs], run one after the other, each
    a training pass followed by an evaluation pass, the next epoch starting
    from the world the previous one left.  A training pass takes the batches
    of the loader in order, iterations numbered from 1, and each batch goes
    through: both tensors moved to the device, gradients reset, prediction,
    loss, the loss added to the epoch total, backward pass, one optimiser
    step, the progress line.  [train] is exactly this: it leaves the world
    that the batches, one after the other, lead to, and prints the mean of
    their losses. *)
Theorem epochs_and_batch_steps (g : Globals) :
  epochs (opt g) = count_from 1 (Z.to_nat (nb_epochs (opt g))) /\
  (forall e, In e (epochs (opt g)) <-> 1 <= e <= nb_epochs (opt g)) /\
  (forall w w',
     run_epochs g w = (Ok tt, w') ->
     exists evs,
       log w' = log w ++ evs /\
       map erase evs = flat_map (epoch_shape g (grad_enabled w)) (epochs (opt g))) /\
  (forall epoch acc i b w,
     train_batch g epoch acc (i, b) w =
       (Ok (py_add acc (PFloat (batch_loss g w b))), after_batch g epoch i b w) /\
     log (after_batch g epoch i b w) =
       log w ++
       [ ToDevice (device g); ToDevice (device g); ZeroGrad;
         Forward (grad_enabled w); Criterion; Backward; OptimizerStep;
         Print (MsgBatch epoch i (len (training_data_loader g))
                  (batch_loss g w b)) ] /\
     model (after_batch g epoch i b w) =
       snd (step (optimizer w)
              (backward (batch_loss_tensor g w b)
                 (zero_grad (optimizer w) (model w))))) /\
  (forall epoch bs i acc w,
     exists total,
       for_fold (enumerate i bs) (train_batch g epoch) acc w =
       (Ok total, train_from g epoch i bs w)) /\
  (forall epoch b bs i w,
     train_from g epoch i [] w = w /\
     train_from g epoch i (b :: bs) w =
       train_from g epoch (i + 1) bs (after_batch g epoch i b w) /\
     losses_from g epoch i [] w = [] /\
     losses_from g epoch i (b :: bs) w =
       batch_loss g w b ::
       losses_from g epoch (i + 1) bs (after_batch g epoch i b w)) /\
  (forall epoch w,
     (1 <= dl_len (training_data_loader g))%nat ->
     train g epoch w =
       (Ok tt,
        set_log
          (log (train_from g epoch 1
                  (batches (training_data_loader g) (train_passes w))
                  (begin_pass w)) ++
           [Print (MsgEpoch epoch
                     (mean (losses_from g epoch 1
                              (batches (training_data_loader g) (train_passes w))
                              (begin_pass w))))])
          (train_from g epoch 1
             (batches (training_data_loader g) (train_passes w))
             (begin_pass w))) /\
     model (snd (train g epoch w)) =
       model (train_from g epoch 1
                (batches (training_data_loader g) (train_passes w))
                (begin_pass w))) /\
  (forall w, run_epochs g w = for_each (epochs (opt g)) (epoch_body g) w) /\
  (forall e es w,
     for_each (e :: es) (epoch_body g) w =
       match train g e w with
       | (Ok _, w1) =>
           match test g w1 with
           | (Ok _, w2) => for_each es (epoch_body g) w2
           | (Raise x, w2) => (Raise x, w2)
           end
       | (Raise x, w1) => (Raise x, w1)
       end).
Proof.
  split; [apply epochs_eq |].
  split; [| split; [| split; [| split; [| split; [| split; [| split]]]]]].
  6: { intros epoch w Hn. rewrite (train_exact g epoch w Hn). split; reflexivity. }
  6: { intros w. reflexivity. }
  6: { intros e es w. cbn [for_each]. unfold bind at 1. unfold epoch_body at 1.
       unfold bind at 1.
       destruct (train g e w) as [[[] | x] w1]; [| reflexivity].
       destruct (test g w1) as [[[] | x] w2]; reflexivity. }
  5: { intros epoch b bs i w. repeat split. }
  - intros e. rewrite epochs_eq, In_count_from. lia.
  - intros w w' H. unfold run_epochs in H.
    change (fun epoch : Z => train g epoch;; test g) with (epoch_body g) in H.
    destruct (for_each_epochs_ok g _ w w' H) as (evs & Hlog & Hshape & _).
    exists evs. split; assumption.
  - intros epoch acc i b w. split; [apply train_batch_eq |].
    split; reflexivity.
  - intros epoch bs i acc w. apply train_loop_world.
Qed.

(** C8: Every epoch that completes is a training pass followed by one
    evaluation pass.  An evaluation pass predicts with gradient tracking off
    and puts the previous grad mode back; it resets no gradient, runs no
    backward pass and no optimiser step, and leaves the model and the
    optimiser as it found them, however it ends. *)
Theorem evaluation_leaves_model (g : Globals) (w : World) :
  model (snd (test g w)) = model w /\
  optimizer (snd (test g w)) = optimizer w /\
  grad_enabled (snd (test g w)) = grad_enabled w /\
  (exists evs,
     log (snd (test g w)) = log w ++ evs /\
     Forall eval_event evs /\
     ~ In ZeroGrad evs /\ ~ In Backward evs /\ ~ In OptimizerStep evs /\
     ~ In (Forward true) evs) /\
  (forall epoch w1 w2,
     epoch_body g epoch w1 = (Ok tt, w2) ->
     exists wt,
       train g epoch w1 = (Ok tt, wt) /\
       test g wt = (Ok tt, w2) /\
       model w2 = model wt) /\
  (forall w1 w2,
     run_epochs g w1 = (Ok tt, w2) ->
     exists evs,
       log w2 = log w1 ++ evs /\
       map erase evs = flat_map (epoch_shape g (grad_enabled w1)) (epochs (opt g))).
Proof.
  destruct (test_frame g w) as (Hm & Ho & Hg & _ & evs & Hlog & Hev).
  repeat (split; [assumption |]).
  split; [| split].
  - exists evs. split; [exact Hlog |]. split; [exact Hev |].
    rewrite Forall_forall in Hev.
    repeat split; intros Hin; apply Hev in Hin; exact Hin.
  - intros epoch w1 w2 H. unfold epoch_body in H. unfold bind at 1 in H.
    destruct (train g epoch w1) as [[[] | e] wt]; [| discriminate].
    exists wt. split; [reflexivity |]. split; [exact H |].
    pose proof (test_frame g wt) as (Hm' & _). rewrite H in Hm'. exact Hm'.
  - intros w1 w2 H. unfold run_epochs in H.
    change (fun epoch : Z => train g epoch;; test g) with (epoch_body g) in H.
    destruct (for_each_epochs_ok g _ w1 w2 H) as (evs' & Hlog' & Hshape & _).
    exists evs'. split; assumption.
Qed.

End Order.

Lemma zero_epochs_still_checkpoints_witness :
  exists g w l,
    setup (rt := Toy.runtime) Toy.new_loader Toy.host (Toy.argv 3 0) [] =
      (Ok (g, w), l) /\
    nb_epochs (opt g) = 0 /\
    saves (snd (main (rt := Toy.runtime) Toy.new_loader Toy.host (Toy.argv 3 0))) =
      [("model_epoch_0.pth"%string, model w)].
Proof.
  destruct (setup (rt := Toy.runtime) Toy.new_loader Toy.host (Toy.argv 3 0) [])
    as [[[g w] | e] l] eqn:E.
  - assert (Hn : nb_epochs (opt g) = 0).
    { vm_compute in E. injection E as <- _ _. reflexivity. }
    exists g, w, l. split; [reflexivity |]. split; [exact Hn |].
    apply (zero_epochs_still_checkpoints (rt := Toy.runtime) Toy.new_loader
             Toy.host (Toy.argv 3 0) g w l E Hn).
  - exfalso. vm_compute in E. discriminate.
Defined.

Lemma epochs_and_batch_steps_witness :
  run_epochs (rt := Toy.runtime) Toy.small (Toy.world 2%float) =
    (Ok tt, snd (run_epochs (rt := Toy.runtime) Toy.small (Toy.world 2%float))) /\
  exists evs,
    log (snd (run_epochs (rt := Toy.runtime) Toy.small (Toy.world 2%float))) = evs /\
    map erase evs = epoch_shape Toy.small true 1.
Proof.
  assert (E : run_epochs (rt := Toy.runtime) Toy.small (Toy.world 2%float) =
              (Ok tt, snd (run_epochs (rt := Toy.runtime) Toy.small
                             (Toy.world 2%float))))
    by (vm_compute; reflexivity).
  split; [exact E |].
  destruct (epochs_and_batch_steps (rt := Toy.runtime) Toy.small)
    as (_ & _ & Hrun & _).
  destruct (Hrun _ _ E) as (evs & Hlog & Hshape).
  exists evs. split; [exact Hlog |].
  rewrite Hshape. vm_compute. reflexivity.
Defined.

Lemma evaluation_leaves_model_witness :
  epoch_body (rt := Toy.runtime) Toy.small 1 (Toy.world 2%float) =
    (Ok tt, snd (epoch_body (rt := Toy.runtime) Toy.small 1 (Toy.world 2%float))) /\
  exists wt,
    train (rt := Toy.runtime) Toy.small 1 (Toy.world 2%float) = (Ok tt, wt) /\
    model (snd (epoch_body (rt := Toy.runtime) Toy.small 1 (Toy.world 2%float))) =
      model wt.
Proof.
  assert (E : epoch_body (rt := Toy.runtime) Toy.small 1 (Toy.world 2%float) =
              (Ok tt, snd (epoch_body (rt := Toy.runtime) Toy.small 1
                             (Toy.world 2%float))))
    by (vm_compute; reflexivity).
  split; [exact E |].
  destruct (evaluation_leaves_model (rt := Toy.runtime) Toy.small (Toy.world 2%float))
    as (_ & _ & _ & _ & Hbody & _).
  destruct (Hbody 1 _ _ E) as (wt & Htrain & _ & Hmodel).
  exists wt. split; [exact Htrain | exact Hmodel].
Defined.

(** * Further properties of the script *)

(** ** Numerals and paths *)

Lemma to_int_nonnil (z : Z) :
  Z.to_int z <> Decimal.Pos Decimal.Nil /\ Z.to_int z <> Decimal.Neg Decimal.Nil.
Proof.
  destruct z as [| p | p]; cbn; split; try discriminate;
    intros H; injection H; apply Unsigned.to_uint_nonnil.
Qed.

(** [int(str(z)) == z] *)
Lemma int_of_str_str (z : Z) : int_of_str (str z) = Some z.
Proof.
  unfold int_of_str, str. destruct (to_int_nonnil z) as [Hp Hn].
  rewrite (NilZero.isi _ Hp Hn). cbn. now rewrite DecimalZ.of_to.
Qed.

Lemma str_inj (a b : Z) : str a = str b -> a = b.
Proof.
  intros H. apply (f_equal int_of_str) in H.
  rewrite !int_of_str_str in H. now injection H.
Qed.

Lemma string_length_append (s t : string) :
  String.length (s +++ t) = (String.length s + String.length t)%nat.
Proof. induction s as [| c s IH]; cbn; [reflexivity | now rewrite IH]. Qed.

Lemma append_inj_l (p s t : string) : p +++ s = p +++ t -> s = t.
Proof.
  induction p as [| c p IH]; cbn; intros H; [exact H |].
  injection H. exact IH.
Qed.

Lemma append_inj_r (t : string) : forall s s', s +++ t = s' +++ t -> s = s'.
Proof.
  induction s as [| c s IH]; intros [| c' s'] H.
  - reflexivity.
  - apply (f_equal String.length) in H. cbn in H.
    rewrite string_length_append in H. lia.
  - apply (f_equal String.length) in H. cbn in H.
    rewrite string_length_append in H. lia.
  - cbn in H. injection H as Hc Hs. subst c'. f_equal. now apply IH.
Qed.

Section Paths.

Context {rt : Runtime}.

(** X8: [checkpoint] writes the model it finds to a path from which the epoch
    number reads back: two epoch numbers share a path only when equal, and
    the path is the prefix, the decimal numeral, the suffix. *)
Theorem checkpoint_path_determines_epoch (a b : Z) (w : World) :
  fst (checkpoint a w) = Ok tt /\
  log (snd (checkpoint a w)) =
    log w ++ [Save (checkpoint_path a) (model w);
              Print (MsgCheckpoint (checkpoint_path a))] /\
  model (snd (checkpoint a w)) = model w /\
  (exists numeral,
      checkpoint_path a = "model_epoch_" +++ numeral +++ ".pth" /\
      int_of_str numeral = Some a) /\
  (checkpoint_path a = checkpoint_path b -> a = b).
Proof.
  split; [reflexivity |]. split.
  { destruct w as [m o gr tp te l].
    unfold checkpoint, torch_save, print, emit, bind, set_log, checkpoint_path.
    cbn. now rewrite <- app_assoc. }
  split; [reflexivity |]. split.
  - exists (str a). split; [reflexivity | apply int_of_str_str].
  - unfold checkpoint_path. intros H.
    apply append_inj_l, append_inj_r in H. now apply str_inj.
Qed.

End Paths.

Lemma checkpoint_path_determines_epoch_witness :
  checkpoint_path (-1) = "model_epoch_-1.pth"%string /\
  (checkpoint_path 3 = checkpoint_path (1 + 2) -> 3 = 1 + 2).
Proof.
  split; [reflexivity |].
  exact (proj2 (proj2 (proj2 (proj2
    (checkpoint_path_determines_epoch (rt := Toy.runtime) 3 (1 + 2)
       (Toy.world 1%float)))))).
Defined.

(** ** Options and devices *)

Section Validation.

Context {rt : Runtime}.
Variable new_loader : Z -> Dataset -> Z -> Z -> bool -> DataLoader.



(** X3: Once validation has passed the [--mps] flag no longer matters: the device
    is the GPU with [--cuda], else the platform accelerator when the host has
    one, else the CPU.  So the CPU is used only on a host without the
    accelerator, and [--mps] on such a host runs on the CPU. *)
Theorem device_after_validation (host : Host) (argv : Argv)
    (g : Globals) (w : World) (l : list Event) :
  setup new_loader host argv [] = (Ok (g, w), l) ->
  device g =
    (if arg_cuda argv then gpu
     else if mps_is_available host then mps_dev
     else cpu) /\
  (device g = cpu -> arg_cuda argv = false /\ mps_is_available host = false) /\
  (arg_mps argv = true -> arg_cuda argv = false ->
   mps_is_available host = false -> device g = cpu).
Proof.
  rewrite setup_eq.
  destruct (parse_args argv) as [o |] eqn:Hp; [| discriminate].
  destruct (parse_args_flags argv o Hp) as [Hc Hm].
  destruct (cuda o && negb (cuda_is_available host)) eqn:G1; [discriminate |].
  destruct (negb (mps o) && mps_is_available host) eqn:G2; [discriminate |].
  destruct (library_setup host o) as [[what k] |]; [discriminate |].
  intros H. inversion H; subst g w l; clear H.
  cbn [device initial_globals]. unfold select_device. rewrite <- Hc, <- Hm.
  destruct (cuda o), (mps o), (mps_is_available host); cbn in *;
    try discriminate;
    (split; [reflexivity |]); split; intros; try split; congruence.
Qed.

End Validation.



Lemma device_after_validation_witness :
  arg_mps Toy.argv_mps = true /\
  mps_is_available Toy.host = false /\
  exists g w l,
    setup (rt := Toy.runtime) Toy.new_loader Toy.host Toy.argv_mps [] =
      (Ok (g, w), l) /\
    device g = cpu.
Proof.
  split; [reflexivity |]. split; [reflexivity |].
  destruct (setup (rt := Toy.runtime) Toy.new_loader Toy.host Toy.argv_mps [])
    as [[[g w] | e] l] eqn:E.
  - exists g, w, l. split; [reflexivity |].
    exact (proj1 (device_after_validation (rt := Toy.runtime) Toy.new_loader
                    Toy.host Toy.argv_mps g w l E)).
  - exfalso. vm_compute in E. discriminate.
Defined.

(** ** What the loops add to the log, however they end *)

Section LoopEvents.

Context {rt : Runtime}.

(** A property of event lists that holds of each group of events the loops
    emit and is kept by concatenation. *)
Variable P : list Event -> Prop.
Variable g : Globals.
Hypothesis P_nil : P [].
Hypothesis P_app : forall a b, P a -> P b -> P (a ++ b).
Hypothesis P_batch :
  forall epoch i grad loss, P (batch_events g epoch i grad loss).
Hypothesis P_epoch_line : forall epoch avg, P [Print (MsgEpoch epoch avg)].
Hypothesis P_eval : P (eval_events g).
Hypothesis P_psnr_line : forall avg, P [Print (MsgPsnr avg)].
Hypothesis P_checkpoint :
  forall path m, P [Save path m; Print (MsgCheckpoint path)].

Lemma train_from_events (epoch : Z) :
  forall (bs : list (Tensor * Tensor)) (i : Z) (w : World),
  exists evs, log (train_from g epoch i bs w) = log w ++ evs /\ P evs.
Proof.
  induction bs as [| b bs IH]; intros i w.
  - exists []. cbn. now rewrite app_nil_r.
  - cbn [train_from].
    destruct (IH (i + 1) (after_batch g epoch i b w)) as (evs & Hlog & HP).
    exists (batch_events g epoch i (grad_enabled w) (batch_loss g w b) ++ evs).
    split; [| now apply P_app].
    rewrite Hlog. cbn [after_batch log]. now rewrite <- app_assoc.
Qed.

Lemma train_events (epoch : Z) (w : World) :
  exists evs, log (snd (train g epoch w)) = log w ++ evs /\ P evs.
Proof.
  set (w1 := {| model := model w; optimizer := optimizer w;
                grad_enabled := grad_enabled w;
                train_passes := S (train_passes w);
                test_passes := test_passes w; log := log w |}).
  destruct (train_loop_world g epoch
              (batches (training_data_loader g) (train_passes w)) 1 (PInt 0) w1)
    as (total & Hrun).
  destruct (train_from_events epoch
              (batches (training_data_loader g) (train_passes w)) 1 w1)
    as (evs & Hlog & HP).
  change (log w1) with (log w) in Hlog.
  unfold train, iter_training. unfold bind at 1. fold w1.
  unfold bind at 1. rewrite Hrun. unfold bind at 1, lift.
  destruct (py_truediv total (PInt (len (training_data_loader g)))) as [avg | e].
  - exists (evs ++ [Print (MsgEpoch epoch avg)]). split.
    + unfold print, emit, set_log. cbn [snd log]. rewrite Hlog.
      now rewrite <- app_assoc.
    + apply P_app; [exact HP | apply P_epoch_line].
  - exists evs. split; [exact Hlog | exact HP].
Qed.

Lemma eval_groups (k : nat) : P (concat (repeat (eval_events g) k)).
Proof.
  induction k as [| k IH]; [exact P_nil |].
  cbn [repeat concat]. now apply P_app.
Qed.

Lemma test_events (w : World) :
  exists evs, log (snd (test g w)) = log w ++ evs /\ P evs.
Proof.
  rewrite test_eq.
  destruct (fst (psnr_sum (eval_losses g w) (PInt 0))) as [s | e].
  - destruct (py_truediv s (PInt (len (testing_data_loader g)))) as [avg | e].
    + eexists. split; [cbn; now rewrite <- app_assoc |].
      apply P_app; [apply eval_groups | apply P_psnr_line].
    + eexists. split; [reflexivity | apply eval_groups].
  - eexists. split; [reflexivity | apply eval_groups].
Qed.

Lemma epoch_body_events (epoch : Z) (w : World) :
  exists evs, log (snd (epoch_body g epoch w)) = log w ++ evs /\ P evs.
Proof.
  unfold epoch_body, bind.
  destruct (train_events epoch w) as (evs & Hlog & HP).
  destruct (train g epoch w) as [[[] | e] w1]; cbn [snd] in *.
  - destruct (test_events w1) as (evs' & Hlog' & HP').
    exists (evs ++ evs'). split; [| now apply P_app].
    rewrite Hlog', Hlog. now rewrite <- app_assoc.
  - exists evs. now split.
Qed.

Lemma for_each_events (es : list Z) :
  forall w,
  exists evs, log (snd (for_each es (epoch_body g) w)) = log w ++ evs /\ P evs.
Proof.
  induction es as [| e es IH]; intros w.
  - exists []. cbn. now rewrite app_nil_r.
  - cbn [for_each]. unfold bind at 1.
    destruct (epoch_body_events e w) as (evs & Hlog & HP).
    destruct (epoch_body g e w) as [[[] | ex] w1]; cbn [snd] in *.
    + destruct (IH w1) as (evs' & Hlog' & HP').
      exists (evs ++ evs'). split; [| now apply P_app].
      rewrite Hlog', Hlog. now rewrite <- app_assoc.
    + exists evs. now split.
Qed.

Lemma run_events (w : World) :
  exists evs, log (snd (run g w)) = log w ++ evs /\ P evs.
Proof.
  rewrite run_eq.
  destruct (for_each_events (epochs (opt g)) w) as (evs & Hlog & HP).
  destruct (for_each (epochs (opt g)) (epoch_body g) w) as [[[] | e] w1];
    cbn [snd] in *.
  - eexists. split.
    + cbn [set_log log]. rewrite Hlog, <- app_assoc. reflexivity.
    + apply P_app; [exact HP | apply P_checkpoint].
  - exists evs. now split.
Qed.

End LoopEvents.

Section Counting.

Context {rt : Runtime}.

Lemma count_app (p : Event -> bool) (a b : list Event) :
  count p (a ++ b) = (count p a + count p b)%nat.
Proof. unfold count. now rewrite filter_app, length_app. Qed.


Lemma count_erase (p : Event -> bool) (l : list Event) :
  (forall e, p (erase e) = p e) -> count p (map erase l) = count p l.
Proof.
  intros Hp. unfold count. induction l as [| e l IH]; [reflexivity |].
  cbn [map filter]. rewrite Hp. destruct (p e); cbn; now rewrite IH.
Qed.

Lemma count_flat_map {A} (p : Event -> bool) (f : A -> list Event) (c : nat)
    (l : list A) :
  (forall a, count p (f a) = c) ->
  count p (flat_map f l) = (List.length l * c)%nat.
Proof.
  intros Hf. induction l as [| a l IH]; [reflexivity |].
  cbn [flat_map List.length]. rewrite count_app, Hf, IH. lia.
Qed.

Lemma count_eval_groups (p : Event -> bool) (g : Globals) (k : nat) :
  count p (eval_events g) = O ->
  count p (concat (repeat (eval_events g) k)) = O.
Proof.
  intros H. induction k as [| k IH]; [reflexivity |].
  cbn [repeat concat]. now rewrite count_app, H, IH.
Qed.

Lemma epochs_length (o : Options) : List.length (epochs o) = Z.to_nat (nb_epochs o).
Proof. rewrite epochs_eq. apply count_from_length. Qed.

End Counting.

Section WholeRun.

Context {rt : Runtime}.
Variable new_loader : Z -> Dataset -> Z -> Z -> bool -> DataLoader.

(** X4: Once the options are parsed, what a run does of lines 37-71 is an
    initial part of one fixed sequence: the options line, the seed, the
    loading line, the training then the test dataset for the upscale factor,
    the training loader (shuffled, [batch_size]) and the evaluation loader
    (not shuffled, [test_batch_size]) with [threads] workers each, the
    building line, the network on the resolved device, the optimiser with
    the learning rate.  A run that stops short of the whole sequence has
    failed and did nothing else; a run whose setup completed did all of it,
    and none of these calls occurs again afterwards.  The generator is seeded
    before any dataset, loader or network exists. *)
Theorem setup_comes_first (host : Host) (argv : Argv) (o : Options) :
  parse_args argv = Ok o ->
  exists (k : nat) (evs : list Event),
    snd (main new_loader host argv) =
      firstn k
        [ Print (MsgOptions o); ManualSeed (seed o); Print MsgLoading;
          GetTrainingSet (upscale_factor o); GetTestSet (upscale_factor o);
          NewDataLoader (threads o) (batch_size o) true;
          NewDataLoader (threads o) (test_batch_size o) false;
          Print MsgBuilding; NewNet (upscale_factor o) (select_device host o);
          NewAdam (lr o) ] ++ evs /\
    Forall (fun e => match e with
                     | ManualSeed _ | GetTrainingSet _ | GetTestSet _
                     | NewDataLoader _ _ _ | NewNet _ _ | NewAdam _ => False
                     | _ => True
                     end) evs /\
    ((k < 10)%nat ->
     evs = [] /\ exists e, fst (main new_loader host argv) = Raise e) /\
    (forall g w l,
       setup new_loader host argv [] = (Ok (g, w), l) ->
       k = 10%nat /\ l = setup_events o (select_device host o)).
Proof.
  intros Hp. rewrite main_eq, Hp.
  pose proof (setup_eq new_loader host argv) as Hsetup. rewrite Hp in Hsetup.
  change [ Print (MsgOptions o); ManualSeed (seed o); Print MsgLoading;
           GetTrainingSet (upscale_factor o); GetTestSet (upscale_factor o);
           NewDataLoader (threads o) (batch_size o) true;
           NewDataLoader (threads o) (test_batch_size o) false;
           Print MsgBuilding; NewNet (upscale_factor o) (select_device host o);
           NewAdam (lr o) ]
    with (setup_events o (select_device host o)).
  destruct (cuda o && negb (cuda_is_available host)).
  { exists 1%nat, []. split; [reflexivity |]. split; [constructor |]. split.
    - intros _. split; [reflexivity | eexists; reflexivity].
    - intros g w l E. rewrite E in Hsetup. discriminate. }
  destruct (negb (mps o) && mps_is_available host).
  { exists 1%nat, []. split; [reflexivity |]. split; [constructor |]. split.
    - intros _. split; [reflexivity | eexists; reflexivity].
    - intros g w l E. rewrite E in Hsetup. discriminate. }
  destruct (library_setup host o) as [[what k] |].
  { exists k, []. rewrite app_nil_r. split; [reflexivity |].
    split; [constructor |]. split.
    - intros _. split; [reflexivity | eexists; reflexivity].
    - intros g w l E. rewrite E in Hsetup. discriminate. }
  cbn [fst snd].
  destruct (run_events
              (Forall (fun e => match e with
                                | ManualSeed _ | GetTrainingSet _ | GetTestSet _
                                | NewDataLoader _ _ _ | NewNet _ _ | NewAdam _ => False
                                | _ => True
                                end))
              (initial_globals new_loader host o))
    with (w := initial_world host o) as (evs & Hlog & HP).
  - constructor.
  - intros a b Ha Hb. apply Forall_app. now split.
  - intros. repeat constructor.
  - intros. repeat constructor.
  - repeat constructor.
  - intros. repeat constructor.
  - intros. repeat constructor.
  - exists 10%nat, evs. split; [exact Hlog |]. split; [exact HP |]. split.
    + intros H. lia.
    + intros g w l E. rewrite E in Hsetup. inversion Hsetup. split; reflexivity.
Qed.


(** X6: A run that completes went through setup, then every epoch in order, then
    the checkpoint, and nothing else.  It printed [nb_epochs] times
    [len(training_data_loader)] batch lines, one epoch line and one PSNR
    line per epoch, and saved once. *)
Theorem completed_run_events (host : Host) (argv : Argv) (o : Options) :
  parse_args argv = Ok o ->
  fst (main new_loader host argv) = Ok tt ->
  (exists m,
     map erase (snd (main new_loader host argv)) =
       setup_events o (select_device host o) ++
       flat_map (epoch_shape (initial_globals new_loader host o) true) (epochs o) ++
       [Save (checkpoint_path (nb_epochs o)) m;
        Print (MsgCheckpoint (checkpoint_path (nb_epochs o)))]) /\
  count is_batch_line (snd (main new_loader host argv)) =
    (Z.to_nat (nb_epochs o) *
     dl_len (training_data_loader (initial_globals new_loader host o)))%nat /\
  count is_epoch_line (snd (main new_loader host argv)) = Z.to_nat (nb_epochs o) /\
  count is_psnr_line (snd (main new_loader host argv)) = Z.to_nat (nb_epochs o) /\
  count is_save (snd (main new_loader host argv)) = 1%nat.
Proof.
  intros Hp. rewrite main_eq, Hp.
  destruct (cuda o && negb (cuda_is_available host)); [discriminate |].
  destruct (negb (mps o) && mps_is_available host); [discriminate |].
  destruct (library_setup host o) as [[what k] |]; [discriminate |].
  cbn [fst snd]. rewrite run_eq.
  change (opt (initial_globals new_loader host o)) with o.
  set (g := initial_globals new_loader host o).
  destruct (for_each (epochs o) (epoch_body g) (initial_world host o))
    as [[[] | e] w1] eqn:E; [| discriminate].
  intros _. cbn [fst snd set_log log].
  destruct (for_each_epochs_ok g (epochs o) _ _ E) as (evs & Hlog & Hshape & _).
  change (grad_enabled (initial_world host o)) with true in Hshape.
  change (log (initial_world host o))
    with (setup_events o (select_device host o)) in Hlog.
  assert (Hall : map erase
                   (log w1 ++
                    [Save (checkpoint_path (nb_epochs o)) (model w1);
                     Print (MsgCheckpoint (checkpoint_path (nb_epochs o)))]) =
                 setup_events o (select_device host o) ++
                 flat_map (epoch_shape g true) (epochs o) ++
                 [Save (checkpoint_path (nb_epochs o)) (model w1);
                  Print (MsgCheckpoint (checkpoint_path (nb_epochs o)))]).
  { rewrite Hlog, !map_app, Hshape, <- app_assoc. reflexivity. }
  split; [exists (model w1); exact Hall |].
  assert (Hcount : forall p c,
             (forall e, p (erase e) = p e) ->
             count p (setup_events o (select_device host o)) = O ->
             (forall e, count p (epoch_shape g true e) = c) ->
             count p (log w1 ++
                      [Save (checkpoint_path (nb_epochs o)) (model w1);
                       Print (MsgCheckpoint (checkpoint_path (nb_epochs o)))]) =
             (Z.to_nat (nb_epochs o) * c +
              count p [Save (checkpoint_path (nb_epochs o)) (model w1);
                       Print (MsgCheckpoint (checkpoint_path (nb_epochs o)))])%nat).
  { intros p c Hpe Hp0 Hpc.
    rewrite <- (count_erase p _ Hpe), Hall, !count_app, Hp0.
    rewrite (count_flat_map p _ c _ Hpc), epochs_length. lia. }
  assert (Hbatch : forall e,
             count is_batch_line (epoch_shape g true e) =
             dl_len (training_data_loader g)).
  { intros e. unfold epoch_shape, train_shape, test_shape.
    rewrite !count_app.
    rewrite (count_flat_map is_batch_line _ 1%nat) by reflexivity.
    rewrite count_from_length, count_eval_groups by reflexivity.
    cbn. lia. }
  assert (Hepoch : forall e, count is_epoch_line (epoch_shape g true e) = 1%nat).
  { intros e. unfold epoch_shape, train_shape, test_shape.
    rewrite !count_app.
    rewrite (count_flat_map is_epoch_line _ O) by reflexivity.
    rewrite count_eval_groups by reflexivity. cbn. lia. }
  assert (Hpsnr : forall e, count is_psnr_line (epoch_shape g true e) = 1%nat).
  { intros e. unfold epoch_shape, train_shape, test_shape.
    rewrite !count_app.
    rewrite (count_flat_map is_psnr_line _ O) by reflexivity.
    rewrite count_eval_groups by reflexivity. cbn. lia. }
  assert (Hsave : forall e, count is_save (epoch_shape g true e) = O).
  { intros e. unfold epoch_shape, train_shape, test_shape.
    rewrite !count_app.
    rewrite (count_flat_map is_save _ O) by reflexivity.
    rewrite count_eval_groups by reflexivity. cbn. lia. }
  repeat split.
  - rewrite (Hcount is_batch_line _ ltac:(intros [[] | | | | | | | | | | | | |]; reflexivity)
               eq_refl Hbatch). cbn. lia.
  - rewrite (Hcount is_epoch_line _ ltac:(intros [[] | | | | | | | | | | | | |]; reflexivity)
               eq_refl Hepoch). cbn. lia.
  - rewrite (Hcount is_psnr_line _ ltac:(intros [[] | | | | | | | | | | | | |]; reflexivity)
               eq_refl Hpsnr). cbn. lia.
  - rewrite (Hcount is_save _ ltac:(intros [[] | | | | | | | | | | | | |]; reflexivity)
               eq_refl Hsave). cbn. lia.
Qed.

(** X7: When the epoch count is zero or below and the run reaches the epoch
    loop (lines 13-71 have completed), [range(1, nb_epochs + 1)] is empty:
    nothing is trained or evaluated, the model just built is saved under
    that number, sign included, and the run completes. *)
Theorem no_positive_epoch_count (host : Host) (argv : Argv)
    (g : Globals) (w : World) (l : list Event) :
  setup new_loader host argv [] = (Ok (g, w), l) ->
  nb_epochs (opt g) <= 0 ->
  epochs (opt g) = [] /\
  main new_loader host argv =
    (Ok tt,
     l ++
     [Save ("model_epoch_" +++ str (nb_epochs (opt g)) +++ ".pth") (model w);
      Print (MsgCheckpoint
               ("model_epoch_" +++ str (nb_epochs (opt g)) +++ ".pth"))]).
Proof.
  intros Hs Hn.
  assert (He : epochs (opt g) = []).
  { rewrite epochs_eq. replace (Z.to_nat (nb_epochs (opt g))) with O by lia.
    reflexivity. }
  split; [exact He |].
  assert (Hlog : log w = l).
  { rewrite setup_eq in Hs.
    destruct (parse_args argv) as [o | e]; [| discriminate].
    destruct (cuda o && negb (cuda_is_available host)); [discriminate |].
    destruct (negb (mps o) && mps_is_available host); [discriminate |].
    destruct (library_setup host o) as [[what k] |]; [discriminate |].
    inversion Hs; subst. reflexivity. }
  unfold main. rewrite Hs, run_eq, He.
  cbn [for_each ret set_log log]. rewrite Hlog. reflexivity.
Qed.

End WholeRun.

Lemma setup_comes_first_witness :
  parse_args Toy.argv_batch_size_0 =
    Ok {| upscale_factor := 3; batch_size := 0; test_batch_size := 10;
          nb_epochs := 0; lr := 0x1.47ae147ae147bp-7%float; cuda := false;
          mps := false; threads := 4; seed := 123 |} /\
  exists k evs,
    snd (main (rt := Toy.runtime) Toy.new_loader Toy.host Toy.argv_batch_size_0) =
    firstn k
      (setup_events
         {| upscale_factor := 3; batch_size := 0; test_batch_size := 10;
            nb_epochs := 0; lr := 0x1.47ae147ae147bp-7%float; cuda := false;
            mps := false; threads := 4; seed := 123 |} cpu) ++ evs.
Proof.
  split; [reflexivity |].
  destruct (setup_comes_first (rt := Toy.runtime) Toy.new_loader Toy.host
              Toy.argv_batch_size_0 _ eq_refl) as (k & evs & Hlog & _).
  exists k, evs. exact Hlog.
Defined.

Lemma completed_run_events_witness :
  parse_args (Toy.argv 3 1) = Ok (Toy.options 1) /\
  fst (main (rt := Toy.runtime) Toy.new_loader Toy.host (Toy.argv 3 1)) = Ok tt /\
  count is_batch_line
    (snd (main (rt := Toy.runtime) Toy.new_loader Toy.host (Toy.argv 3 1))) = 2%nat /\
  count is_epoch_line
    (snd (main (rt := Toy.runtime) Toy.new_loader Toy.host (Toy.argv 3 1))) = 1%nat.
Proof.
  assert (Hp : parse_args (Toy.argv 3 1) = Ok (Toy.options 1)) by reflexivity.
  assert (Hr : fst (main (rt := Toy.runtime) Toy.new_loader Toy.host (Toy.argv 3 1))
               = Ok tt) by (vm_compute; reflexivity).
  destruct (completed_run_events (rt := Toy.runtime) Toy.new_loader Toy.host
              (Toy.argv 3 1) (Toy.options 1) Hp Hr) as (_ & Hb & He & _).
  split; [exact Hp |]. split; [exact Hr |]. split; [exact Hb | exact He].
Defined.

Lemma no_positive_epoch_count_witness :
  exists g w l,
    setup (rt := Toy.runtime) Toy.new_loader Toy.host (Toy.argv 3 (-1)) [] =
      (Ok (g, w), l) /\
    nb_epochs (opt g) <= 0 /\
    saves (snd (main (rt := Toy.runtime) Toy.new_loader Toy.host (Toy.argv 3 (-1)))) =
      [("model_epoch_-1.pth"%string, model w)].
Proof.
  destruct (setup (rt := Toy.runtime) Toy.new_loader Toy.host (Toy.argv 3 (-1)) [])
    as [[[g w] | e] l] eqn:E.
  - assert (Hn : nb_epochs (opt g) = -1).
    { vm_compute in E. injection E as <- _ _. reflexivity. }
    assert (Hl : saves l = []).
    { vm_compute in E. injection E as _ _ <-. reflexivity. }
    exists g, w, l. split; [reflexivity |]. split; [lia |].
    destruct (no_positive_epoch_count (rt := Toy.runtime) Toy.new_loader Toy.host
                (Toy.argv 3 (-1)) g w l E ltac:(lia)) as [_ Hmain].
    rewrite Hmain, Hn. cbn [snd]. rewrite saves_app, Hl. reflexivity.
  - exfalso. vm_compute in E. discriminate.
Defined.

(** ** Losses that are not numbers *)

Lemma is_nan_spec (x : float) : PrimFloat.is_nan x = true <-> Prim2SF x = S754_nan.
Proof.
  unfold PrimFloat.is_nan. rewrite FloatAxioms.eqb_spec.
  destruct (Prim2SF x) as [s | s | | s m e]; unfold SFeqb, SFcompare.
  - split; discriminate.
  - destruct s; split; discriminate.
  - split; reflexivity.
  - rewrite Z.compare_refl, Pos.compare_cont_refl.
    destruct s; split; discriminate.
Qed.

Lemma nan_add (a b : float) :
  PrimFloat.is_nan a = true \/ PrimFloat.is_nan b = true ->
  PrimFloat.is_nan (PrimFloat.add a b) = true.
Proof.
  rewrite !is_nan_spec, FloatAxioms.add_spec. unfold SF64add, SFadd.
  intros [H | H]; rewrite H; [reflexivity |].
  destruct (Prim2SF a); reflexivity.
Qed.

Lemma nan_mul (a b : float) :
  PrimFloat.is_nan a = true \/ PrimFloat.is_nan b = true ->
  PrimFloat.is_nan (PrimFloat.mul a b) = true.
Proof.
  rewrite !is_nan_spec, FloatAxioms.mul_spec. unfold SF64mul, SFmul.
  intros [H | H]; rewrite H; [reflexivity |].
  destruct (Prim2SF a); reflexivity.
Qed.

Lemma nan_div (a b : float) :
  PrimFloat.is_nan a = true \/ PrimFloat.is_nan b = true ->
  PrimFloat.is_nan (PrimFloat.div a b) = true.
Proof.
  rewrite !is_nan_spec, FloatAxioms.div_spec. unfold SF64div, SFdiv.
  intros [H | H]; rewrite H; [reflexivity |].
  destruct (Prim2SF a); reflexivity.
Qed.

Lemma nan_not_zero (m : float) :
  PrimFloat.is_nan m = true -> PrimFloat.eqb m 0%float = false.
Proof.
  rewrite is_nan_spec, FloatAxioms.eqb_spec. intros ->. reflexivity.
Qed.

Lemma nan_sum_from (ls : list float) :
  forall acc,
    PrimFloat.is_nan acc = true ->
    PrimFloat.is_nan (fold_left PrimFloat.add ls acc) = true.
Proof.
  induction ls as [| l ls IH]; intros acc H; [exact H |].
  cbn [fold_left]. apply IH, nan_add. now left.
Qed.

Lemma nan_sum (ls : list float) :
  Exists (fun l => PrimFloat.is_nan l = true) ls ->
  forall acc, PrimFloat.is_nan (fold_left PrimFloat.add ls acc) = true.
Proof.
  induction 1 as [l ls H | l ls _ IH]; intros acc; cbn [fold_left].
  - apply nan_sum_from, nan_add. now right.
  - apply IH.
Qed.

Lemma nan_mean (ls : list float) :
  Exists (fun l => PrimFloat.is_nan l = true) ls ->
  PrimFloat.is_nan (mean ls) = true.
Proof.
  intros H. unfold mean. apply nan_div. left. now apply nan_sum.
Qed.

Section NotANumber.

Context {rt : Runtime}.

Lemma psnr_of_is_float (m : float) (p : pynum) :
  psnr_of m = Ok p -> p = PFloat (psnr_value m).
Proof.
  unfold psnr_value. intros H. rewrite H. revert H. unfold psnr_of.
  destruct (py_truediv (PInt 1) (PFloat m)) as [q | e]; [| discriminate].
  destruct (log10 q) as [l | e]; [| discriminate].
  intros H. injection H as <-. reflexivity.
Qed.

(** Line 102 on a loss that is not a number: no exception, and the PSNR is
    not a number either. *)
Lemma psnr_of_nan (m : float) :
  PrimFloat.is_nan m = true ->
  psnr_of m = Ok (PFloat (psnr_value m)) /\
  PrimFloat.is_nan (psnr_value m) = true.
Proof.
  intros Hm.
  assert (Hq : PrimFloat.is_nan (PrimFloat.div 1%float m) = true)
    by (apply nan_div; now right).
  assert (H : psnr_of m =
              Ok (PFloat (PrimFloat.mul 10%float (PrimFloat.div 1%float m)))).
  { unfold psnr_of, py_truediv, py_is_zero. rewrite (nan_not_zero m Hm).
    cbn [py_float]. rewrite float_of_Z_1. unfold log10. rewrite Hq. reflexivity. }
  split.
  - now rewrite (psnr_of_is_float _ _ H) in H.
  - unfold psnr_value. rewrite H. cbn [py_float]. apply nan_mul. now right.
Qed.

(** X9: A training batch whose loss is not a number does not stop the pass: with
    at least one batch [train] completes as ever, and the average it prints
    is not a number. *)
Theorem nan_loss_gives_nan_average (g : Globals) (epoch : Z) (w : World) :
  (1 <= dl_len (training_data_loader g))%nat ->
  exists (w' : World) (evs : list Event) (avg : float),
    train g epoch w = (Ok tt, w') /\
    log w' = log w ++ evs ++ [Print (MsgEpoch epoch avg)] /\
    (Exists (fun l => PrimFloat.is_nan l = true) (reported_losses evs) ->
     PrimFloat.is_nan avg = true).
Proof.
  intros Hn.
  destruct (train_spec g epoch w Hn) as (w' & evs & Hrun & Hlog & _).
  exists w', evs, (mean (reported_losses evs)).
  split; [exact Hrun |]. split; [exact Hlog |]. apply nan_mean.
Qed.

(** X10: An evaluation batch whose loss is not a number raises nothing at line
    102.  When every batch of a non-empty pass has a PSNR, [test] completes,
    and if the loss of some batch is not a number the average it prints is
    not a number. *)
Theorem nan_mse_gives_nan_psnr (g : Globals) (w : World) :
  (1 <= dl_len (testing_data_loader g))%nat ->
  Forall (fun mse => exists p, psnr_of mse = Ok p) (eval_losses g w) ->
  (forall mse, PrimFloat.is_nan mse = true -> exists p, psnr_of mse = Ok p) /\
  exists (w' : World) (avg : float),
    test g w = (Ok tt, w') /\
    log w' = log w ++
             concat (repeat (eval_events g) (dl_len (testing_data_loader g))) ++
             [Print (MsgPsnr avg)] /\
    (Exists (fun mse => PrimFloat.is_nan mse = true) (eval_losses g w) ->
     PrimFloat.is_nan avg = true).
Proof.
  intros Hn Hdef. split.
  { intros mse Hm. eexists. apply (psnr_of_nan mse Hm). }
  assert (Hok : Forall (fun m => psnr_of m = Ok (PFloat (psnr_value m)))
                  (eval_losses g w)).
  { eapply Forall_impl; [| exact Hdef]. intros m [p Hp].
    now rewrite (psnr_of_is_float _ _ Hp) in Hp. }
  pose proof (psnr_sum_all_ok psnr_value _ Hok (PInt 0)) as Hsum.
  pose proof (eval_losses_length g w) as Hlen.
  assert (Hne : map psnr_value (eval_losses g w) <> []).
  { intros E. apply (f_equal (@List.length float)) in E.
    rewrite length_map, Hlen in E. cbn in E. lia. }
  rewrite (sum_from_int_0 _ Hne), Hlen in Hsum.
  eexists. exists (mean (map psnr_value (eval_losses g w))).
  split; [| split].
  - rewrite test_eq, Hsum. cbn [fst]. unfold len.
    rewrite truediv_by_count by exact Hn. reflexivity.
  - unfold after_eval. rewrite Hsum. cbn [set_log log snd].
    rewrite <- app_assoc. unfold mean. now rewrite length_map, Hlen.
  - intros Hex. apply nan_mean. apply Exists_exists in Hex.
    destruct Hex as (m & Hin & Hm). apply Exists_exists.
    exists (psnr_value m). split; [now apply in_map |].
    apply (psnr_of_nan m Hm).
Qed.

End NotANumber.

Lemma nan_loss_gives_nan_average_witness :
  (1 <= dl_len (training_data_loader Toy.small))%nat /\
  exists w' evs avg,
    train (rt := Toy.runtime) Toy.small 1 (Toy.world nan) = (Ok tt, w') /\
    log w' = evs ++ [Print (MsgEpoch 1 avg)].
Proof.
  assert (H : (1 <= dl_len (training_data_loader Toy.small))%nat) by (cbn; lia).
  split; [exact H |].
  destruct (nan_loss_gives_nan_average (rt := Toy.runtime) Toy.small 1
              (Toy.world nan) H) as (w' & evs & avg & Hrun & Hlog & _).
  exists w', evs, avg. split; [exact Hrun | exact Hlog].
Defined.

Lemma nan_mse_gives_nan_psnr_witness :
  (1 <= dl_len (testing_data_loader Toy.small))%nat /\
  Exists (fun mse => PrimFloat.is_nan mse = true)
    (eval_losses (rt := Toy.runtime) Toy.small (Toy.world nan)) /\
  exists w' avg,
    test (rt := Toy.runtime) Toy.small (Toy.world nan) = (Ok tt, w') /\
    PrimFloat.is_nan avg = true.
Proof.
  assert (H1 : (1 <= dl_len (testing_data_loader Toy.small))%nat) by (cbn; lia).
  assert (H2 : Exists (fun mse => PrimFloat.is_nan mse = true)
                 (eval_losses (rt := Toy.runtime) Toy.small (Toy.world nan))).
  { constructor. reflexivity. }
  assert (H3 : Forall (fun mse => exists p, psnr_of (rt := Toy.runtime) mse = Ok p)
                 (eval_losses (rt := Toy.runtime) Toy.small (Toy.world nan))).
  { constructor; [| constructor]. eexists. vm_compute. reflexivity. }
  split; [exact H1 |]. split; [exact H2 |].
  destruct (nan_mse_gives_nan_psnr (rt := Toy.runtime) Toy.small (Toy.world nan)
              H1 H3) as (_ & w' & avg & Hrun & _ & Hnan).
  exists w', avg. split; [exact Hrun | exact (Hnan H2)].
Defined.

(** ** How a run can end *)

Section Endings.

Context {rt : Runtime}.








Variable new_loader : Z -> Dataset -> Z -> Z -> bool -> DataLoader.



End Endings.
